(** * Hello-Uno: a shallow embedding of [uno.py]

    The development follows the layout of the Python module: the card
    enumerations, [UnoCard], [UnoPlayer], [ReversibleCycle], [UnoGame] and
    the automated opponent of [AIUnoGame].  The module is embedded as CPython
    executes it.

    Conventions of the embedding.
    - A Python object that the program handles as a value is a [value]:
      [None], an integer, a string, or a member of one of the enumerations.
      [a == b] on values is [py_eq]: members are equal when they are the same
      member, and a member never equals a string, not even its own value.
    - [CardColor], [CardType] and [ColorCardType] declare no member; the
      members live in their subclasses.  A test [x in SomeClass] is
      [enum_contains]: up to CPython 3.11 it looks the name of [x] up among
      the members that the class itself declares, from CPython 3.12 it
      accepts every instance of the class.  [SomeClass.NAME] is [class_attr].
    - An attribute of a card is read by name with [UnoCard.getattr]: a card
      has the attributes [color] and [type], and [temp_color] once it has
      been assigned.
    - Python integers are [Z]; list indices follow Python's rule (a negative
      index counts from the end); an exception is a value of [PyError], whose
      text is kept up to its formatted parts, and for an [AttributeError] is
      the name of the attribute.  The [isinstance] checks on arguments are
      discharged by the types.
    - Player objects are compared by identity; since [self.players] is never
      resized a player is represented by its index in that list.  Every card
      object sits in one place at a time (the deck or one hand), so cards are
      values.  *)

From stdpp Require Import base decidable option list numbers strings.

Local Open Scope string_scope.
Local Open Scope list_scope.

(** ** Python values shared by all classes *)

Inductive PyError : Type :=
  | ValueError (msg : string)
  | IndexError (msg : string)
  | ZeroDivisionError (msg : string)
  | AttributeError (msg : string)
  | TypeError (msg : string).

Definition result (A : Type) : Type := (PyError + A)%type.

(** Sequencing of computations that may raise. *)
Definition rbind {A B : Type} (r : result A) (k : A -> result B) : result B :=
  match r with
  | inl e => inl e
  | inr a => k a
  end.

Declare Scope result_scope.
Delimit Scope result_scope with result.
Notation "x <~ m ; k" := (rbind m (fun x => k))
  (at level 20, m at level 100, k at level 200, only parsing) : result_scope.

Definition index_out_of_range : PyError := IndexError "list index out of range".
Definition pop_from_empty : PyError := IndexError "pop from empty list".
Definition pop_out_of_range : PyError := IndexError "pop index out of range".

(** [l[i]]: where the index [i] of a Python list of length [len l] lands. *)
Definition py_index {A : Type} (l : list A) (i : Z) : option nat :=
  let n := Z.of_nat (length l) in
  if (0 <=? i)%Z then (if (i <? n)%Z then Some (Z.to_nat i) else None)
  else (if (- n <=? i)%Z then Some (Z.to_nat (n + i)) else None).

Definition py_getitem {A : Type} (l : list A) (i : Z) : result A :=
  match py_index l i with
  | Some k => match l !! k with Some x => inr x | None => inl index_out_of_range end
  | None => inl index_out_of_range
  end.

(** [l.pop(i)]: the element and the list without it. *)
Definition py_pop {A : Type} (l : list A) (i : Z) : result (A * list A) :=
  match l with
  | [] => inl pop_from_empty
  | _ =>
      match py_index l i with
      | Some k =>
          match l !! k with
          | Some x => inr (x, delete k l)
          | None => inl pop_out_of_range
          end
      | None => inl pop_out_of_range
      end
  end.

(** ** The enumerations *)

Inductive NormalCardColor : Set := RED | YELLOW | GREEN | BLUE.
Inductive BlackCardColor : Set := BLACK.
Inductive CardColor : Set :=
  | Normal (c : NormalCardColor)
  | Black (c : BlackCardColor).

Inductive NumberCardType : Set := N0 | N1 | N2 | N3 | N4 | N5 | N6 | N7 | N8 | N9.
Inductive SpecialCardType : Set := SKIP | REVERSE | PLUS2.
Inductive ColorCardType : Set :=
  | Number (t : NumberCardType)
  | Special (t : SpecialCardType).
Inductive BlackCardType : Set := WILDCARD | PLUS4.
Inductive CardType : Set :=
  | ColorT (t : ColorCardType)
  | BlackT (t : BlackCardType).

Coercion Normal : NormalCardColor >-> CardColor.
Coercion Black : BlackCardColor >-> CardColor.
Coercion Number : NumberCardType >-> ColorCardType.
Coercion Special : SpecialCardType >-> ColorCardType.
Coercion ColorT : ColorCardType >-> CardType.
Coercion BlackT : BlackCardType >-> CardType.

#[global] Instance NormalCardColor_eq_dec : EqDecision NormalCardColor.
Proof. solve_decision. Defined.
#[global] Instance BlackCardColor_eq_dec : EqDecision BlackCardColor.
Proof. solve_decision. Defined.
#[global] Instance CardColor_eq_dec : EqDecision CardColor.
Proof. solve_decision. Defined.
#[global] Instance NumberCardType_eq_dec : EqDecision NumberCardType.
Proof. solve_decision. Defined.
#[global] Instance SpecialCardType_eq_dec : EqDecision SpecialCardType.
Proof. solve_decision. Defined.
#[global] Instance ColorCardType_eq_dec : EqDecision ColorCardType.
Proof. solve_decision. Defined.
#[global] Instance BlackCardType_eq_dec : EqDecision BlackCardType.
Proof. solve_decision. Defined.
#[global] Instance CardType_eq_dec : EqDecision CardType.
Proof. solve_decision. Defined.

(** The values that the program passes around and compares. *)
Inductive value : Set :=
  | VNone
  | VInt (n : Z)
  | VStr (s : string)
  | VColor (c : CardColor)
  | VType (t : CardType).

Coercion VColor : CardColor >-> value.
Coercion VType : CardType >-> value.

#[global] Instance value_eq_dec : EqDecision value.
Proof. solve_decision. Defined.

(** [a == b] *)
Definition py_eq (a b : value) : bool := bool_decide (a = b).

(** [x in l] for a list [l] *)
Definition py_in (x : value) (l : list value) : bool := existsb (py_eq x) l.

(** The name and the value of each member, as declared in the class
    bodies. *)
Definition color_name (c : CardColor) : string :=
  match c with
  | Normal RED => "RED"
  | Normal YELLOW => "YELLOW"
  | Normal GREEN => "GREEN"
  | Normal BLUE => "BLUE"
  | Black BLACK => "BLACK"
  end.

Definition color_value (c : CardColor) : string :=
  match c with
  | Normal RED => "red"
  | Normal YELLOW => "yellow"
  | Normal GREEN => "green"
  | Normal BLUE => "blue"
  | Black BLACK => "black"
  end.

Definition type_name (t : CardType) : string :=
  match t with
  | ColorT (Number N0) => "N0"
  | ColorT (Number N1) => "N1"
  | ColorT (Number N2) => "N2"
  | ColorT (Number N3) => "N3"
  | ColorT (Number N4) => "N4"
  | ColorT (Number N5) => "N5"
  | ColorT (Number N6) => "N6"
  | ColorT (Number N7) => "N7"
  | ColorT (Number N8) => "N8"
  | ColorT (Number N9) => "N9"
  | ColorT (Special SKIP) => "SKIP"
  | ColorT (Special REVERSE) => "REVERSE"
  | ColorT (Special PLUS2) => "PLUS2"
  | BlackT WILDCARD => "WILDCARD"
  | BlackT PLUS4 => "PLUS4"
  end.

Definition type_value (t : CardType) : string :=
  match t with
  | ColorT (Number N0) => "0"
  | ColorT (Number N1) => "1"
  | ColorT (Number N2) => "2"
  | ColorT (Number N3) => "3"
  | ColorT (Number N4) => "4"
  | ColorT (Number N5) => "5"
  | ColorT (Number N6) => "6"
  | ColorT (Number N7) => "7"
  | ColorT (Number N8) => "8"
  | ColorT (Number N9) => "9"
  | ColorT (Special SKIP) => "skip"
  | ColorT (Special REVERSE) => "reverse"
  | ColorT (Special PLUS2) => "+2"
  | BlackT WILDCARD => "wildcard"
  | BlackT PLUS4 => "+4"
  end.

(** *** The classes of the enumerations *)

Inductive EnumClass : Set :=
  | cls_CardColor
  | cls_NormalCardColor
  | cls_BlackCardColor
  | cls_CardType
  | cls_ColorCardType
  | cls_NumberCardType
  | cls_SpecialCardType
  | cls_BlackCardType.

#[global] Instance EnumClass_eq_dec : EqDecision EnumClass.
Proof. solve_decision. Defined.

(** The class that a class statement derives from, [None] for [Enum]. *)
Definition base (cls : EnumClass) : option EnumClass :=
  match cls with
  | cls_CardColor => None
  | cls_NormalCardColor => Some cls_CardColor
  | cls_BlackCardColor => Some cls_CardColor
  | cls_CardType => None
  | cls_ColorCardType => Some cls_CardType
  | cls_NumberCardType => Some cls_ColorCardType
  | cls_SpecialCardType => Some cls_ColorCardType
  | cls_BlackCardType => Some cls_CardType
  end.

(** [issubclass(cls, other)]; no class of the module is more than two
    steps below another. *)
Definition issubclass (cls other : EnumClass) : bool :=
  bool_decide (cls = other)
  || bool_decide (base cls = Some other)
  || bool_decide (base cls ≫= base = Some other).

(** The class in whose body a member is declared; [None] for a value
    that is no member. *)
Definition enum_class (x : value) : option EnumClass :=
  match x with
  | VColor (Normal _) => Some cls_NormalCardColor
  | VColor (Black _) => Some cls_BlackCardColor
  | VType (ColorT (Number _)) => Some cls_NumberCardType
  | VType (ColorT (Special _)) => Some cls_SpecialCardType
  | VType (BlackT _) => Some cls_BlackCardType
  | _ => None
  end.

Definition member_name (x : value) : option string :=
  match x with
  | VColor c => Some (color_name c)
  | VType t => Some (type_name t)
  | _ => None
  end.

Definition member_value (x : value) : option value :=
  match x with
  | VColor c => Some (VStr (color_value c))
  | VType t => Some (VStr (type_value t))
  | _ => None
  end.

Definition every_member : list value :=
  [VColor RED; VColor YELLOW; VColor GREEN; VColor BLUE; VColor BLACK;
   VType N0; VType N1; VType N2; VType N3; VType N4;
   VType N5; VType N6; VType N7; VType N8; VType N9;
   VType SKIP; VType REVERSE; VType PLUS2; VType WILDCARD; VType PLUS4].

(** The members that the body of a class declares. *)
Definition members (cls : EnumClass) : list value :=
  filter (fun x => enum_class x = Some cls) every_member.

(** [isinstance(x, cls)] *)
Definition isinstance (x : value) (cls : EnumClass) : bool :=
  match enum_class x with
  | Some c => issubclass c cls
  | None => false
  end.

(** [cls.NAME] *)
Definition class_attr (cls : EnumClass) (name : string) : result value :=
  match filter (fun x => member_name x = Some name) (members cls) with
  | x :: _ => inr x
  | [] => inl (AttributeError name)
  end.

(** The two behaviours of [x in cls] on an enumeration class: that of
    CPython 3.8 to 3.11 and that of CPython from 3.12 on. *)
Inductive CPython : Set := Py3_11 | Py3_12.

(** [x in cls].  Up to 3.11: a [TypeError] for a value that is no member,
    else [isinstance(x, cls) and x._name_ in cls._member_map_].  From 3.12:
    an instance of [cls], or the value of one of its members. *)
Definition enum_contains (py : CPython) (cls : EnumClass) (x : value) : result bool :=
  match py with
  | Py3_11 =>
      match member_name x with
      | None => inl (TypeError "unsupported operand type(s) for 'in'")
      | Some name =>
          inr (isinstance x cls
               && bool_decide (Some name ∈ member_name <$> members cls))
      end
  | Py3_12 =>
      inr (isinstance x cls
           || bool_decide (Some x ∈ member_value <$> members cls))
  end.

(** ** UnoCard *)

Module UnoCard.

(** [color] and [type] are the attributes that [__init__] stores;
    [temp_color] is the attribute that [UnoGame.play] assigns to a played
    black card, [None] standing for a card that does not carry it. *)
Record t : Set := mk {
  color : value;
  type : value;
  temp_color : option value
}.

#[global] Instance eq_dec : EqDecision t.
Proof. solve_decision. Defined.

(** [self.name] *)
Definition getattr (self : t) (name : string) : result value :=
  if String.eqb name "color" then inr (color self)
  else if String.eqb name "type" then inr (type self)
  else if String.eqb name "temp_color" then
    match temp_color self with
    | Some v => inr v
    | None => inl (AttributeError name)
    end
  else inl (AttributeError name).

Local Open Scope result_scope.

(** [__validate]; the condition of its second [if] is evaluated from left
    to right, [and] and [or] skipping what they need not evaluate. *)
Definition validate (py : CPython) (color card_type : value) : result unit :=
  known <~ enum_contains py cls_CardColor color;
  if negb known then inl (ValueError "Invalid color")
  else
    left_side <~ (black <~ class_attr cls_CardColor "BLACK";
                  if py_eq color black
                  then (found <~ enum_contains py cls_BlackCardType card_type;
                        inr (negb found))
                  else inr false);
    right_side <~ (if left_side : bool then inr true
                   else black <~ class_attr cls_CardColor "BLACK";
                        if negb (py_eq color black)
                        then (found <~ enum_contains py cls_ColorCardType card_type;
                              inr (negb found))
                        else inr false);
    if right_side : bool then inl (ValueError "Invalid card") else inr ().

Definition init (py : CPython) (color card_type : value) : result t :=
  _ <~ validate py color card_type;
  inr (mk color card_type None).

(** [self == other] *)
Definition eq (self other : t) : result bool :=
  if py_eq (color self) (color other)
  then (card_type <~ getattr other "card_type"; inr (py_eq (type self) card_type))
  else inr false.

(** [self.playable(other)] *)
Definition playable (self other : t) : bool :=
  py_eq (color self) (color other)
  || py_eq (type self) (type other)
  || py_eq (color other) (VStr "black").

(** [self.temp_color = new_color] *)
Definition set_temp_color (new_color : value) (c : t) : t :=
  mk (color c) (type c) (Some new_color).

End UnoCard.

(** ** UnoPlayer *)

Module UnoPlayer.

Record t : Set := mk {
  hand : list UnoCard.t;
  player_id : option Z
}.

Definition set_hand (h : list UnoCard.t) (p : t) : t := mk h (player_id p).

(** The private check of the class.  It is defined but [__init__] does
    not call it.  Its second test, that every element is an [UnoCard], holds
    by the type of [cards]. *)
Definition validate (cards : list UnoCard.t) : result unit :=
  let card_size := length cards in
  if negb (card_size =? 7)%nat then inl (ValueError "Invalid number of cards")
  else inr ().

Definition init (cards : list UnoCard.t) (player_id : option Z) : result t :=
  inr (mk cards player_id).

Definition can_play (self : t) (current_card : UnoCard.t) : bool :=
  existsb (UnoCard.playable current_card) (hand self).

End UnoPlayer.

(** ** ReversibleCycle *)

Module ReversibleCycle.

Record t (A : Type) : Type := mk {
  _items : list A;
  _pos : option Z;
  _reverse : bool
}.
Arguments mk {A} _ _ _.
Arguments _items {A} _.
Arguments _pos {A} _.
Arguments _reverse {A} _.

Section Cycle.
Context {A : Type}.

Definition init (iterable : list A) : t A := mk iterable None false.

Definition _delta (self : t A) : Z := if _reverse self then (-1)%Z else 1%Z.

(** The setter of [pos]: [self._pos = value % len(self._items)]. *)
Definition set_pos (self : t A) (value : Z) : result (t A) :=
  match _items self with
  | [] => inl (ZeroDivisionError "integer modulo by zero")
  | _ => inr (mk (_items self)
                 (Some (value `mod` Z.of_nat (length (_items self)))%Z)
                 (_reverse self))
  end.

(** [__next__]: the item returned and the cycle after the call. *)
Definition next (self : t A) : result (A * t A) :=
  let moved :=
    match _pos self with
    | None => set_pos self (if _reverse self then (-1)%Z else 0%Z)
    | Some p => set_pos self (p + _delta self)%Z
    end in
  match moved with
  | inl e => inl e
  | inr self' =>
      match _pos self' with
      | Some p =>
          match py_getitem (_items self') p with
          | inl e => inl e
          | inr x => inr (x, self')
          end
      | None => inl index_out_of_range
      end
  end.

Definition reverse (self : t A) : t A :=
  mk (_items self) (_pos self) (negb (_reverse self)).

(** The items returned by [n] successive calls of [next]; [None] when
    one of them raises. *)
Fixpoint advances (n : nat) (self : t A) : option (list A) :=
  match n with
  | O => Some []
  | S n' =>
      match next self with
      | inl _ => None
      | inr (x, self') => cons x <$> advances n' self'
      end
  end.
End Cycle.

End ReversibleCycle.

(** ** UnoGame *)

(** The module-level constants that [_create_deck] and [play] read are not
    defined in uno.py: their definitions survive only as comments at its
    head. *)

(** Modelled from the spec: [COLORS], the four non-black colours. *)
Definition COLORS : list value := [VColor RED; VColor YELLOW; VColor GREEN; VColor BLUE].

(** Modelled from the spec: [NUMBERS], the number types 0 to 9 followed by
    1 to 9, so that 0 comes once and every other number twice. *)
Definition NUMBERS : list value :=
  [VType N0; VType N1; VType N2; VType N3; VType N4;
   VType N5; VType N6; VType N7; VType N8; VType N9]
  ++ [VType N1; VType N2; VType N3; VType N4; VType N5;
      VType N6; VType N7; VType N8; VType N9].

(** Modelled from the spec: [SPECIAL_CARD_TYPES], the three special types. *)
Definition SPECIAL_CARD_TYPES : list value := [VType SKIP; VType REVERSE; VType PLUS2].

(** Modelled from the spec: [COLOR_CARD_TYPES], the 25 type slots of a
    colour: the numbers, then the special types twice. *)
Definition COLOR_CARD_TYPES : list value :=
  NUMBERS ++ (SPECIAL_CARD_TYPES ++ SPECIAL_CARD_TYPES).

(** Modelled from the spec: [BLACK_CARD_TYPES], the two black types. *)
Definition BLACK_CARD_TYPES : list value := [VType WILDCARD; VType PLUS4].

(** [new_color in COLORS] *)
Definition in_COLORS (new_color : value) : bool := py_in new_color COLORS.

(** [[deck.pop(i) for _ in range(n)]]: the deck is popped in place, so when
    a pop raises the cards already popped have left the deck. *)
Fixpoint pop_comprehension (i : Z) (n : nat) (deck : list UnoCard.t)
  : result (list UnoCard.t) * list UnoCard.t :=
  match n with
  | O => (inr [], deck)
  | S n' =>
      match py_pop deck i with
      | inl e => (inl e, deck)
      | inr (c, deck') =>
          match pop_comprehension i n' deck' with
          | (inl e, d) => (inl e, d)
          | (inr cs, d) => (inr (c :: cs), d)
          end
      end
  end.

Module UnoGame.

Record t : Set := mk {
  deck : list UnoCard.t;
  players : list UnoPlayer.t;
  _player_cycle : ReversibleCycle.t nat;
  _current_player : nat;
  _winner : option nat
}.

Definition set_deck (d : list UnoCard.t) (g : t) : t :=
  mk d (players g) (_player_cycle g) (_current_player g) (_winner g).
Definition set_players (ps : list UnoPlayer.t) (g : t) : t :=
  mk (deck g) ps (_player_cycle g) (_current_player g) (_winner g).
Definition set_cycle (c : ReversibleCycle.t nat) (g : t) : t :=
  mk (deck g) (players g) c (_current_player g) (_winner g).
Definition set_current_player (p : nat) (g : t) : t :=
  mk (deck g) (players g) (_player_cycle g) p (_winner g).
Definition set_winner (w : option nat) (g : t) : t :=
  mk (deck g) (players g) (_player_cycle g) (_current_player g) w.

(** *** Construction *)

(** [[UnoCard(color, card_type) for color, card_type in all_cards]] *)
Fixpoint build_cards (py : CPython) (all_cards : list (value * value))
  : result (list UnoCard.t) :=
  match all_cards with
  | [] => inr []
  | (color, card_type) :: rest =>
      match UnoCard.init py color card_type with
      | inl e => inl e
      | inr c =>
          match build_cards py rest with
          | inl e => inl e
          | inr cs => inr (c :: cs)
          end
      end
  end.

Definition color_cards : list (value * value) := list_prod COLORS COLOR_CARD_TYPES.
Definition black_cards : list (value * value) :=
  list_prod (replicate 4 (VStr "black")) BLACK_CARD_TYPES.
Definition all_cards : list (value * value) := color_cards ++ black_cards.

(** [shuffle] stands for the outcome of [random.shuffle] on the deck. *)
Definition _create_deck (py : CPython) (random : bool)
    (shuffle : list UnoCard.t -> list UnoCard.t) : result (list UnoCard.t) :=
  match build_cards py all_cards with
  | inl e => inl e
  | inr deck => if random then inr (shuffle deck) else inr (rev deck)
  end.

Definition _deal_hand (deck : list UnoCard.t) : result (list UnoCard.t) * list UnoCard.t :=
  pop_comprehension (-1) 7 deck.

(** [[UnoPlayer(self._deal_hand(), n) for n in range(players)]], with
    [n] running over [first, first + count). *)
Fixpoint deal_players (count : nat) (first : Z) (deck : list UnoCard.t)
  : result (list UnoPlayer.t * list UnoCard.t) :=
  match count with
  | O => inr ([], deck)
  | S count' =>
      match _deal_hand deck with
      | (inl e, _) => inl e
      | (inr cards, deck') =>
          match UnoPlayer.init cards (Some first) with
          | inl e => inl e
          | inr p =>
              match deal_players count' (first + 1)%Z deck' with
              | inl e => inl e
              | inr (ps, deck'') => inr (p :: ps, deck'')
              end
          end
      end
  end.

Definition init (py : CPython) (players : Z) (random : bool)
    (shuffle : list UnoCard.t -> list UnoCard.t) : result t :=
  if negb ((2 <=? players)%Z && (players <=? 15)%Z)
  then inl (ValueError "Invalid game: must be between 2 and 15 players")
  else
    match _create_deck py random shuffle with
    | inl e => inl e
    | inr deck =>
        match deal_players (Z.to_nat players) 0 deck with
        | inl e => inl e
        | inr (ps, deck') =>
            let cycle := ReversibleCycle.init (seq 0 (length ps)) in
            match ReversibleCycle.next cycle with
            | inl e => inl e
            | inr (p, cycle') => inr (mk deck' ps cycle' p None)
            end
        end
    end.

(** *** The operations on a game

    A method is a function from the game before the call to the outcome
    of the call and the game after it; the game after a call that raises
    keeps what the call had mutated. *)

Definition M (A : Type) : Type := t -> result A * t.

Definition ret {A : Type} (a : A) : M A := fun g => (inr a, g).
Definition raise {A : Type} (e : PyError) : M A := fun g => (inl e, g).
Definition bind {A B : Type} (m : M A) (k : A -> M B) : M B :=
  fun g => match m g with
           | (inl e, g') => (inl e, g')
           | (inr a, g') => k a g'
           end.
Definition lift {A : Type} (r : result A) : M A := fun g => (r, g).
Definition get : M t := fun g => (inr g, g).
Definition modify (f : t -> t) : M unit := fun g => (inr (), f g).

Declare Scope game_scope.
Delimit Scope game_scope with game.
Notation "x <~ m ; k" := (bind m (fun x => k))
  (at level 20, m at level 100, k at level 200, only parsing) : game_scope.
Notation "m ;; k" := (bind m (fun _ => k))
  (at level 100, k at level 200, only parsing, right associativity) : game_scope.
Local Open Scope game_scope.

(** [self.players[i].hand] *)
Definition hand_of (i : nat) : M (list UnoCard.t) :=
  fun g => match players g !! i with
           | Some p => (inr (UnoPlayer.hand p), g)
           | None => (inl index_out_of_range, g)
           end.

(** In-place update of the hand of the player object of index [i]. *)
Definition alter_hand (f : list UnoCard.t -> list UnoCard.t) (i : nat) : M unit :=
  modify (fun g =>
    set_players (alter (fun p => UnoPlayer.set_hand (f (UnoPlayer.hand p)) p) i (players g)) g).

(** The property [current_card]: [self.deck[-1]]. *)
Definition current_card : M UnoCard.t :=
  fun g => (py_getitem (deck g) (-1), g).

(** The property [is_active]. *)
Definition is_active (g : t) : bool :=
  forallb (fun player => (0 <? length (UnoPlayer.hand player))%nat) (players g).

(** [__next__]: [self._current_player = next(self._player_cycle)] *)
Definition next : M unit :=
  fun g => match ReversibleCycle.next (_player_cycle g) with
           | inl e => (inl e, g)
           | inr (p, cycle') => (inr (), set_current_player p (set_cycle cycle' g))
           end.

(** [_pick_up(player, n)] *)
Definition _pick_up (player : nat) (n : nat) : M unit :=
  penalty_cards <~ (fun g =>
      let (r, d) := pop_comprehension 0 n (deck g) in (r, set_deck d g));
  alter_hand (fun h => h ++ penalty_cards) player.

(** [_player.hand.pop(card)] *)
Definition hand_pop (player : nat) (card : Z) : M UnoCard.t :=
  h <~ hand_of player;
  popped <~ lift (py_pop h card);
  alter_hand (fun _ => snd popped) player ;;
  ret (fst popped).

(** [self.current_card.temp_color = new_color] *)
Definition set_current_temp_color (new_color : value) : M unit :=
  top <~ current_card;
  modify (fun g =>
    set_deck (take (length (deck g) - 1) (deck g)
              ++ [UnoCard.set_temp_color new_color top]) g).

(** The effect of the card just played (the [if]/[elif] chain of [play]). *)
Definition resolve_effect (card_color card_type new_color : value) : M unit :=
  if py_eq card_color (VStr "black") then
    set_current_temp_color new_color ;;
    (if py_eq card_type (VStr "+4") then
       next ;;
       g <~ get;
       _pick_up (_current_player g) 4
     else ret ())
  else if py_eq card_type (VStr "reverse") then
    modify (fun g => set_cycle (ReversibleCycle.reverse (_player_cycle g)) g)
  else if py_eq card_type (VStr "skip") then
    next
  else if py_eq card_type (VStr "+2") then
    next ;;
    g <~ get;
    _pick_up (_current_player g) 2
  else ret ().

(** The second half of [play], from [played_card = _player.hand.pop(card)]
    to the end: the card moves to the top of the deck, its colour and its
    [card_type] are read, the effect is resolved, and the turn passes on or
    the winner is recorded.  [_print_winner] only prints and is left
    out. *)
Definition play_card (_player : nat) (card : Z) (new_color : value) : M unit :=
  played_card <~ hand_pop _player card;
  modify (fun g => set_deck (deck g ++ [played_card]) g) ;;
  card_color <~ lift (UnoCard.getattr played_card "color");
  card_type <~ lift (UnoCard.getattr played_card "card_type");
  resolve_effect card_color card_type new_color ;;
  g2 <~ get;
  if is_active g2 then next
  else modify (set_winner (Some _player)).

(** [play(player, card=None, new_color=None)] *)
Definition play (player : Z) (card : option Z) (new_color : value) : M unit :=
  g0 <~ get;
  if negb ((0 <=? player)%Z && (player <? Z.of_nat (length (players g0)))%Z)
  then raise (ValueError "Invalid player: index out of range")
  else
    let _player := Z.to_nat player in
    if negb (bool_decide (_current_player g0 = _player))
    then raise (ValueError "Invalid player: not their turn")
    else
      match card with
      | None => _pick_up _player 1 ;; next
      | Some card =>
          h <~ hand_of _player;
          _card <~ lift (py_getitem h card);
          top <~ current_card;
          if negb (UnoCard.playable top _card)
          then raise (ValueError "Invalid card: not playable")
          else if py_eq (UnoCard.color _card) (VStr "black") && negb (in_COLORS new_color)
          then raise (ValueError "Invalid new_color: must be red, yellow, green or blue")
          else
            g1 <~ get;
            if negb (is_active g1) then raise (ValueError "Game is over")
            else play_card _player card new_color
      end.


End UnoGame.

(** ** The reading of the card rules in the specification *)

(** The colour that counts for the next play: the colour chosen when a black
    card was played, else the colour of the card. *)
Definition color_in_effect (c : UnoCard.t) : value :=
  match UnoCard.temp_color c with
  | Some chosen => chosen
  | None => UnoCard.color c
  end.

(** Playability as the specification words it. *)
Definition spec_playable (top candidate : UnoCard.t) : bool :=
  bool_decide (color_in_effect top = UnoCard.color candidate)
  || bool_decide (UnoCard.type top = UnoCard.type candidate)
  || bool_decide (UnoCard.color candidate = VColor BLACK).

(** ** Reference values for the statements *)

(** The exceptions that [play] raises while it checks a call: every
    [ValueError], and the [IndexError] of an index outside the hand or of an
    empty deck that has no current card. *)
Definition validation_error (e : PyError) : bool :=
  match e with
  | ValueError _ => true
  | IndexError msg => bool_decide (msg = "list index out of range")
  | ZeroDivisionError _ => false
  | AttributeError _ => false
  | TypeError _ => false
  end.

(** The seat reached from the current player after [steps] steps in the
    current direction of play. *)
Definition seat_after (g : UnoGame.t) (steps : Z) : nat :=
  Z.to_nat ((Z.of_nat (UnoGame._current_player g)
             + steps * ReversibleCycle._delta (UnoGame._player_cycle g))
            `mod` Z.of_nat (length (UnoGame.players g)))%Z.

(** What [__init__] sets up between the fields of a game: the cycle runs
    over the seated players, of whom there are at least two, and the current
    player is the one at the position of the cycle. *)
Definition consistent (g : UnoGame.t) : Prop :=
  ReversibleCycle._items (UnoGame._player_cycle g) = seq 0 (length (UnoGame.players g))
  /\ 2 <= length (UnoGame.players g)
  /\ ReversibleCycle._pos (UnoGame._player_cycle g)
     = Some (Z.of_nat (UnoGame._current_player g))
  /\ UnoGame._current_player g < length (UnoGame.players g).

(** A method keeps the fields of the game consistent, whatever its
    outcome. *)
Definition preserves {A : Type} (m : UnoGame.M A) : Prop :=
  forall g, consistent g -> consistent (snd (m g)).

(** The identifiers of the seated players, in seating order. *)
Definition seat_ids (g : UnoGame.t) : list (option Z) :=
  map UnoPlayer.player_id (UnoGame.players g).

(** The hands of the seated players, in seating order. *)
Definition hands (g : UnoGame.t) : list (list UnoCard.t) :=
  map UnoPlayer.hand (UnoGame.players g).

(** The game once the card [c] has left the hand of [player], which is
    [hand'] from then on, and lies on top of the deck. *)
Definition pushed (g : UnoGame.t) (player : nat) (hand' : list UnoCard.t) (c : UnoCard.t)
  : UnoGame.t :=
  UnoGame.set_deck (UnoGame.deck g ++ [c])
    (UnoGame.set_players
       (alter (fun q => UnoPlayer.set_hand hand' q) player (UnoGame.players g)) g).

(** The game once [player] has drawn the first card of the deck. *)
Definition drew (g : UnoGame.t) (player : nat) : UnoGame.t :=
  UnoGame.set_players
    (alter (fun q => UnoPlayer.set_hand (UnoPlayer.hand q ++ take 1 (UnoGame.deck g)) q)
           player (UnoGame.players g))
    (UnoGame.set_deck (drop 1 (UnoGame.deck g)) g).

(** The game once the turn has passed to the next seat. *)
Definition turned (g : UnoGame.t) : UnoGame.t :=
  UnoGame.set_current_player (seat_after g 1)
    (UnoGame.set_cycle
       (ReversibleCycle.mk (seq 0 (length (UnoGame.players g)))
          (Some (Z.of_nat (seat_after g 1)))
          (ReversibleCycle._reverse (UnoGame._player_cycle g))) g).

(** The checks that [play] makes of a card move of the current player
    pass: the player [p] whose turn it is holds the card [c] at the index
    [card], which is the place [k] of the hand, the card is playable on the
    current card, a card whose colour is the string ['black'] comes with
    one of [COLORS], and the game is not over. *)
Definition legal_card (g : UnoGame.t) (p : UnoPlayer.t) (card : Z) (k : nat)
    (c : UnoCard.t) (new_color : value) : Prop :=
  UnoGame.players g !! UnoGame._current_player g = Some p
  /\ py_index (UnoPlayer.hand p) card = Some k
  /\ UnoPlayer.hand p !! k = Some c
  /\ (exists top, py_getitem (UnoGame.deck g) (-1) = inr top
                  /\ UnoCard.playable top c = true)
  /\ (UnoCard.color c = VStr "black" -> in_COLORS new_color = true)
  /\ UnoGame.is_active g = true.

(** No card in a hand has the string ['black'] as its colour; so it is
    when the colours are members, as the annotations of [UnoCard.__init__]
    ask. *)
Definition no_black_string (g : UnoGame.t) : bool :=
  forallb (fun p =>
             forallb (fun c => negb (py_eq (UnoCard.color c) (VStr "black")))
                     (UnoPlayer.hand p))
          (UnoGame.players g).

(** ** Objects assembled attribute by attribute

    No call of [UnoCard] or of [UnoGame] returns an object (see below), so
    the cards and games on which the methods are evaluated are assembled by
    hand. *)

(** A card with a member as colour and a member as type, as the annotations
    of [UnoCard.__init__] ask for, and no [temp_color]. *)
Definition card (color : CardColor) (card_type : CardType) : UnoCard.t :=
  UnoCard.mk (VColor color) (VType card_type) None.

(** A game whose fields are set as [UnoGame.__init__] sets them after the
    deal: the players numbered in seating order, the cycle over them stepped
    once, on player 0, in forward direction, no winner. *)
Definition table (hands : list (list UnoCard.t)) (deck : list UnoCard.t) : UnoGame.t :=
  UnoGame.mk deck
    (imap (fun i h => UnoPlayer.mk h (Some (Z.of_nat i))) hands)
    (ReversibleCycle.mk (seq 0 (length hands)) (Some 0%Z) false) 0 None.

(** Two players; player 0 holds a single card, which is playable on the
    card on top of the deck. *)
Definition last_card_table : UnoGame.t :=
  table [[card RED N5]; [card GREEN N1]] [card BLUE N7; card RED N0].

(** Two players; a black wildcard is on top of the deck and player 0 holds
    a wild-draw-four, a wildcard and another card. *)
Definition wild_table : UnoGame.t :=
  table [[card BLACK PLUS4; card BLACK WILDCARD; card RED N1]; [card GREEN N2]]
    [card BLUE N1; card BLUE N2; card BLUE N3; card BLUE N4; card BLUE N5;
     card BLACK WILDCARD].

(** Three players with two cards each, on a deck of four cards with a red 7
    on top; the cards of player 0 are playable on it, those of player 1 are
    not. *)
Definition small_table : UnoGame.t :=
  table [[card RED N1; card RED SKIP]; [card BLUE N2; card GREEN REVERSE];
         [card YELLOW N3; card RED PLUS2]]
    [card BLUE N8; card GREEN N9; card YELLOW N0; card RED N7].


(** ** AIUnoGame: the automated opponent *)

Module AIUnoGame.

(** [game.play(player=player_id, ...)]: [play] first checks that its
    argument is an integer, which an identifier left at [None] is not. *)
Definition play_as (player_id : option Z) (card : option Z) (new_color : value)
  : UnoGame.M unit :=
  match player_id with
  | Some player => UnoGame.play player card new_color
  | None => UnoGame.raise (ValueError "Invalid player: should be the index number")
  end.

(** [for i, card in enumerate(player.hand)] up to the first card that is
    playable on [current_card], the one at which the loop breaks; [i] counts
    the cards already passed. *)
Fixpoint first_playable (current_card : UnoCard.t) (i : nat) (hand : list UnoCard.t)
  : option (nat * UnoCard.t) :=
  match hand with
  | [] => None
  | card :: rest =>
      if UnoCard.playable current_card card then Some (i, card)
      else first_playable current_card (S i) rest
  end.

(** [__next__] when the current player is not [self.player]: the two
    branches that move for an automated player.  [choice] stands for
    [random.choice]; printing is left out. *)
Definition opponent_turn (choice : list value -> value) : UnoGame.M unit :=
  UnoGame.bind UnoGame.get (fun game =>
  match UnoGame.players game !! UnoGame._current_player game with
  | None => UnoGame.raise index_out_of_range
  | Some player =>
      let player_id := UnoPlayer.player_id player in
      UnoGame.bind UnoGame.current_card (fun current_card =>
      if UnoPlayer.can_play player current_card then
        match first_playable current_card 0 (UnoPlayer.hand player) with
        | Some (i, card) =>
            let new_color :=
              if py_eq (UnoCard.color card) (VStr "black") then choice COLORS
              else VNone in
            play_as player_id (Some (Z.of_nat i)) new_color
        | None => UnoGame.ret ()
        end
      else play_as player_id None VNone)
  end).

End AIUnoGame.

(** * Properties *)
(** ** Python lists *)

Lemma py_getitem_inr {A : Type} (l : list A) (i : Z) (x : A) :
  py_getitem l i = inr x <-> exists k, py_index l i = Some k /\ l !! k = Some x.
Proof.
  unfold py_getitem. split.
  - intros H. repeat case_match; simplify_eq. eauto.
  - intros (k & -> & ->). done.
Qed.

Lemma py_getitem_inl {A : Type} (l : list A) (i : Z) (e : PyError) :
  py_getitem l i = inl e -> e = index_out_of_range.
Proof. unfold py_getitem. intros H. repeat case_match; by simplify_eq. Qed.

Lemma py_pop_of_getitem {A : Type} (l : list A) (i : Z) (x : A) :
  py_getitem l i = inr x ->
  exists k, py_index l i = Some k /\ l !! k = Some x /\ py_pop l i = inr (x, delete k l).
Proof.
  intros (k & Hk & Hx)%py_getitem_inr. exists k. split_and!; [done..|].
  unfold py_pop. destruct l; [done|]. by rewrite Hk, Hx.
Qed.

(** ** Values and enumeration classes *)

(** A member of an enumeration is never equal to a string. *)
Lemma py_eq_member_str (x : value) (s : string) :
  enum_class x <> None -> py_eq x (VStr s) = false.
Proof. intros Hx. destruct x; try done. Qed.

Lemma py_eq_true (a b : value) : py_eq a b = true <-> a = b.
Proof. apply bool_decide_eq_true. Qed.

Lemma py_eq_refl (a : value) : py_eq a a = true.
Proof. by apply py_eq_true. Qed.

Lemma py_eq_sym (a b : value) : py_eq a b = py_eq b a.
Proof. unfold py_eq. apply bool_decide_ext. split; congruence. Qed.

(** [CardColor] declares no member: it has no attribute [BLACK], and up to
    CPython 3.11 nothing is [in] it. *)
Lemma CardColor_has_no_BLACK :
  class_attr cls_CardColor "BLACK" = inl (AttributeError "BLACK").
Proof. reflexivity. Qed.

(** ** Cards *)

(** No call of [UnoCard] returns a card. *)
Lemma card_init_raises (py : CPython) (color card_type : value) :
  exists e, UnoCard.init py color card_type = inl e.
Proof.
  unfold UnoCard.init, UnoCard.validate, rbind.
  destruct (enum_contains py cls_CardColor color) as [e|found] eqn:Hin; [by eexists|].
  destruct found; [|by eexists].
  rewrite CardColor_has_no_BLACK. by eexists.
Qed.

(** What [playable] computes on a candidate whose colour is a member: the
    third test never holds. *)
Lemma playable_member (top candidate : UnoCard.t) :
  enum_class (UnoCard.color candidate) <> None ->
  UnoCard.playable top candidate
  = bool_decide (UnoCard.color top = UnoCard.color candidate)
    || bool_decide (UnoCard.type top = UnoCard.type candidate).
Proof.
  intros Hc. unfold UnoCard.playable. rewrite (py_eq_member_str _ _ Hc).
  apply orb_false_r.
Qed.

(** On a top card that carries no chosen colour and a candidate whose colour
    is a member other than [BLACK] the two readings agree. *)
Lemma playable_fresh_top (top candidate : UnoCard.t) (c : NormalCardColor) :
  UnoCard.temp_color top = None ->
  UnoCard.color candidate = VColor c ->
  UnoCard.playable top candidate = spec_playable top candidate.
Proof.
  intros Htop Hc. rewrite playable_member by (by rewrite Hc).
  unfold spec_playable, color_in_effect. rewrite Htop, Hc.
  rewrite (bool_decide_eq_false_2 (VColor c = VColor BLACK)) by (by destruct c).
  by rewrite orb_false_r.
Qed.

(** C1: [playable] does not compute what the claim says.  A black card is
    not recognised as such: the wild-draw-four is rejected on a red 5, where
    the claim accepts it, because the colour of the candidate, a member, is
    compared with the string ['black']; on a candidate whose colour is a
    member the outcome is that of the first two tests alone.  The colour in
    effect is never consulted: the outcome is the same whatever colour the
    top card carries, so that a red 5 is rejected on a wildcard for which
    red was chosen.  What stands is the comparison of the digits: between
    number cards of two colours, the same digit and no other is playable. *)
Theorem playable_misses_black_member :
  UnoCard.playable (card RED N5) (card BLACK PLUS4) = false
  /\ spec_playable (card RED N5) (card BLACK PLUS4) = true
  /\ (forall (top candidate : UnoCard.t) (c : CardColor),
        UnoCard.color candidate = VColor c ->
        UnoCard.playable top candidate
        = bool_decide (UnoCard.color top = UnoCard.color candidate)
          || bool_decide (UnoCard.type top = UnoCard.type candidate))
  /\ (forall (top candidate : UnoCard.t) (chosen : value),
        UnoCard.playable (UnoCard.set_temp_color chosen top) candidate
        = UnoCard.playable top candidate)
  /\ UnoCard.playable (UnoCard.set_temp_color (VColor RED) (card BLACK WILDCARD))
       (card RED N5) = false
  /\ spec_playable (UnoCard.set_temp_color (VColor RED) (card BLACK WILDCARD))
       (card RED N5) = true
  /\ (forall (c1 c2 : NormalCardColor) (n m : NumberCardType),
        c1 <> c2 ->
        UnoCard.playable (card c1 n) (card c2 m) = bool_decide (n = m)).
Proof.
  split_and!; try reflexivity.
  - intros top candidate c Hc. apply playable_member. rewrite Hc. by destruct c as [?|?].
  - intros c1 c2 n m Hne. rewrite playable_member by done. simpl.
    rewrite bool_decide_eq_false_2 by congruence. simpl.
    apply bool_decide_ext. split; congruence.
Qed.

(** C4: no pair of a colour and a type makes a card.  [__validate] raises
    for every pair of members, the pairs of [BLACK] with a wild type among
    them: up to CPython 3.11 the test [color not in CardColor] holds of every
    member, [CardColor] declaring none; from CPython 3.12 the test passes and
    the lookup of [CardColor.BLACK] raises.  The same holds of arguments
    that are no members.  A call that raises returns no card. *)
Theorem card_construction_raises (py : CPython) :
  (forall (color : CardColor) (card_type : CardType),
      UnoCard.init py color card_type
      = inl (match py with
             | Py3_11 => ValueError "Invalid color"
             | Py3_12 => AttributeError "BLACK"
             end))
  /\ (forall color card_type : value,
        exists e, UnoCard.init py color card_type = inl e).
Proof.
  split.
  - intros color card_type.
    destruct py, color as [[]|[]]; reflexivity.
  - apply card_init_raises.
Qed.

(** X5: [==] between two cards never returns True: it returns False when
    the colours differ, and when they are equal it raises, because it reads
    the attribute [card_type], which no card has. *)
Theorem card_eq_never_true (self other : UnoCard.t) :
  UnoCard.eq self other
  = (if py_eq (UnoCard.color self) (UnoCard.color other)
     then inl (AttributeError "card_type") else inr false)
  /\ UnoCard.eq self self = inl (AttributeError "card_type")
  /\ UnoCard.eq self other <> inr true.
Proof.
  assert (H : UnoCard.eq self other
              = (if py_eq (UnoCard.color self) (UnoCard.color other)
                 then inl (AttributeError "card_type") else inr false)).
  { unfold UnoCard.eq. by destruct (py_eq _ _). }
  split_and!.
  - exact H.
  - unfold UnoCard.eq. by rewrite py_eq_refl.
  - rewrite H. by destruct (py_eq _ _).
Qed.

(** X16: every card is playable on itself, and between two cards neither of
    which has the string ['black'] as its colour (a member is never that
    string) [playable] does not tell the card on top from the candidate. *)
Theorem playable_symmetric (a b : UnoCard.t) :
  UnoCard.color a <> VStr "black" ->
  UnoCard.color b <> VStr "black" ->
  UnoCard.playable a b = UnoCard.playable b a
  /\ UnoCard.playable a a = true.
Proof.
  intros Ha Hb. unfold UnoCard.playable. split.
  - rewrite (py_eq_sym (UnoCard.color a)), (py_eq_sym (UnoCard.type a)).
    f_equal; unfold py_eq; by rewrite !bool_decide_eq_false_2.
  - by rewrite py_eq_refl.
Qed.

Lemma playable_symmetric_witness :
  UnoCard.playable (card BLACK PLUS4) (card RED N5)
  = UnoCard.playable (card RED N5) (card BLACK PLUS4)
  /\ UnoCard.playable (card BLACK PLUS4) (card BLACK PLUS4) = true.
Proof.
  apply (playable_symmetric (card BLACK PLUS4) (card RED N5)); discriminate.
Defined.

(** ** Players *)

(** C9: the constructor stores whatever hand it is given and never raises:
    an empty hand, which the check of the class rejects, makes a player. *)
Theorem player_construction_unchecked :
  UnoPlayer.init [] None = inr (UnoPlayer.mk [] None)
  /\ UnoPlayer.validate [] = inl (ValueError "Invalid number of cards")
  /\ (forall cards player_id,
        UnoPlayer.init cards player_id = inr (UnoPlayer.mk cards player_id)).
Proof. split_and!; reflexivity. Qed.

(** ** The reversible cycle *)

Section CycleFacts.
Context {A : Type}.
Implicit Types (c : ReversibleCycle.t A) (items : list A).

Lemma set_pos_nonempty c (value : Z) :
  ReversibleCycle._items c <> [] ->
  ReversibleCycle.set_pos c value
  = inr (ReversibleCycle.mk (ReversibleCycle._items c)
           (Some (value `mod` Z.of_nat (length (ReversibleCycle._items c)))%Z)
           (ReversibleCycle._reverse c)).
Proof. unfold ReversibleCycle.set_pos. by destruct (ReversibleCycle._items c). Qed.

Lemma py_getitem_mod items (value : Z) :
  items <> [] ->
  py_getitem items (value `mod` Z.of_nat (length items))%Z
  = match items !! Z.to_nat (value `mod` Z.of_nat (length items))%Z with
    | Some x => inr x
    | None => inl index_out_of_range
    end.
Proof.
  intros Hne. unfold py_getitem, py_index.
  assert (0 < length items) by (destruct items; simpl; [done|lia]).
  pose proof (Z.mod_pos_bound value (Z.of_nat (length items)) ltac:(lia)).
  destruct (Z.leb_spec 0 (value `mod` Z.of_nat (length items))); [|lia].
  destruct (Z.ltb_spec (value `mod` Z.of_nat (length items)) (Z.of_nat (length items)));
    [done|lia].
Qed.

(** A call of [next] on a cycle over at least one item never raises. *)
Lemma next_total c :
  ReversibleCycle._items c <> [] ->
  exists x c', ReversibleCycle.next c = inr (x, c')
               /\ ReversibleCycle._items c' = ReversibleCycle._items c
               /\ ReversibleCycle._reverse c' = ReversibleCycle._reverse c.
Proof.
  intros Hne. unfold ReversibleCycle.next.
  assert (0 < length (ReversibleCycle._items c))
    by (destruct (ReversibleCycle._items c); simpl; [done|lia]).
  destruct (ReversibleCycle._pos c) as [p|];
    rewrite set_pos_nonempty by done; simpl;
    rewrite py_getitem_mod by done;
    match goal with
    | |- context [ ?l !! Z.to_nat (?v `mod` ?n)%Z ] =>
        pose proof (Z.mod_pos_bound v n ltac:(lia));
        destruct (lookup_lt_is_Some_2 l (Z.to_nat (v `mod` n)%Z) ltac:(lia)) as [x ->]
    end; eauto.
Qed.


Lemma reverse_involutive c :
  ReversibleCycle.reverse (ReversibleCycle.reverse c) = c.
Proof. destruct c as [items pos []]; reflexivity. Qed.

End CycleFacts.

(** C6: on a fresh cycle the first [next] returns the first item; when
    [reverse] is called first it returns the last item; with three players
    the order is 0, 1, 2, 0 and, reversed first, 2, 1, 0, 2; [reverse]
    leaves the position as it was and only flips the direction. *)
Theorem cycle_first_advance {A : Type} (items : list A) (first final : A) :
  head items = Some first ->
  last items = Some final ->
  ReversibleCycle.next (ReversibleCycle.init items)
  = inr (first, ReversibleCycle.mk items (Some 0%Z) false)
  /\ ReversibleCycle.next (ReversibleCycle.reverse (ReversibleCycle.init items))
     = inr (final, ReversibleCycle.mk items (Some (Z.of_nat (length items) - 1)%Z) true)
  /\ ReversibleCycle.advances 4 (ReversibleCycle.init [0; 1; 2]) = Some [0; 1; 2; 0]
  /\ ReversibleCycle.advances 4
       (ReversibleCycle.reverse (ReversibleCycle.init [0; 1; 2]))
     = Some [2; 1; 0; 2]
  /\ (forall c : ReversibleCycle.t A,
        ReversibleCycle._pos (ReversibleCycle.reverse c) = ReversibleCycle._pos c
        /\ ReversibleCycle._items (ReversibleCycle.reverse c) = ReversibleCycle._items c
        /\ ReversibleCycle._reverse (ReversibleCycle.reverse c)
           = negb (ReversibleCycle._reverse c)).
Proof.
  intros Hfirst Hfinal.
  assert (Hne : items <> []) by (intros ->; discriminate).
  assert (Hlen : 0 < length items) by (destruct items; simpl; [done|lia]).
  split_and!.
  - unfold ReversibleCycle.next. simpl.
    rewrite set_pos_nonempty by done. simpl.
    rewrite Z.mod_0_l by lia.
    destruct items as [|x rest]; [done|]. simpl in Hfirst. by simplify_eq.
  - unfold ReversibleCycle.next. simpl.
    rewrite set_pos_nonempty by done. simpl.
    replace ((-1) `mod` Z.of_nat (length items))%Z with (Z.of_nat (length items) - 1)%Z.
    2:{ apply Z.mod_unique with (q := (-1)%Z); lia. }
    unfold py_getitem, py_index.
    destruct (Z.leb_spec 0 (Z.of_nat (length items) - 1)); [|lia].
    destruct (Z.ltb_spec (Z.of_nat (length items) - 1) (Z.of_nat (length items))); [|lia].
    rewrite last_lookup in Hfinal.
    replace (Z.to_nat (Z.of_nat (length items) - 1)) with (pred (length items)) by lia.
    by rewrite Hfinal.
  - reflexivity.
  - reflexivity.
  - intros c. done.
Qed.

Lemma cycle_first_advance_witness :
  ReversibleCycle.next (ReversibleCycle.init [0; 1; 2])
  = inr (0, ReversibleCycle.mk [0; 1; 2] (Some 0%Z) false)
  /\ ReversibleCycle.next (ReversibleCycle.reverse (ReversibleCycle.init [0; 1; 2]))
     = inr (2, ReversibleCycle.mk [0; 1; 2] (Some 2%Z) true).
Proof.
  destruct (cycle_first_advance [0; 1; 2] 0 2) as (H1 & H2 & _ & _ & _).
  - reflexivity.
  - reflexivity.
  - split; [exact H1 | exact H2].
Defined.

(** C10: two calls of [reverse] in a row give back the cycle they started
    from, so any number of calls of [next] returns the same items as without
    them. *)
Theorem cycle_reverse_twice {A : Type} (c : ReversibleCycle.t A) (n : nat) :
  ReversibleCycle.reverse (ReversibleCycle.reverse c) = c
  /\ ReversibleCycle.advances n (ReversibleCycle.reverse (ReversibleCycle.reverse c))
     = ReversibleCycle.advances n c.
Proof.
  assert (H : ReversibleCycle.reverse (ReversibleCycle.reverse c) = c)
    by apply reverse_involutive.
  split; [exact H | by rewrite H].
Qed.

(** ** The deck *)


(** C5: [_create_deck] enumerates 100 pairs of a colour and a type and 8
    pairs for the black cards, and returns no deck: the construction of the
    first card raises, with the shuffle as without it. *)
Theorem create_deck_raises (py : CPython) (random : bool)
    (shuffle : list UnoCard.t -> list UnoCard.t) :
  length UnoGame.color_cards = 100
  /\ length UnoGame.black_cards = 8
  /\ UnoGame._create_deck py random shuffle
     = inl (match py with
            | Py3_11 => ValueError "Invalid color"
            | Py3_12 => AttributeError "BLACK"
            end).
Proof.
  split_and!; [reflexivity..|].
  unfold UnoGame._create_deck. by destruct py.
Qed.

(** ** The game: the operations one by one *)

Section GameOperations.
Import UnoGame.
Implicit Types (g : t) (e : PyError).

Lemma bind_inr {A B : Type} (m : M A) (k : A -> M B) g (a : A) g1 :
  m g = (inr a, g1) -> bind m k g = k a g1.
Proof. unfold bind. by intros ->. Qed.

Lemma bind_inl {A B : Type} (m : M A) (k : A -> M B) g e g1 :
  m g = (inl e, g1) -> bind m k g = (inl e, g1).
Proof. unfold bind. by intros ->. Qed.

Lemma bind_modify {B : Type} (f : t -> t) (k : unit -> M B) g :
  bind (modify f) k g = k () (f g).
Proof. reflexivity. Qed.

(** Popping [n] cards from the front: all or, on a deck too short, every
    card that was left. *)
Lemma pop_front_spec (n : nat) (deck : list UnoCard.t) :
  pop_comprehension 0 n deck
  = if decide (n <= length deck) then (inr (take n deck), drop n deck)
    else (inl pop_from_empty, []).
Proof.
  revert deck. induction n as [|n IH]; intros deck.
  - destruct (decide (0 <= length deck)); [|lia]. reflexivity.
  - destruct deck as [|c deck].
    + destruct (decide (S n <= length (@nil UnoCard.t))) as [Hle|_]; [simpl in Hle; lia|].
      reflexivity.
    + change (pop_comprehension 0 (S n) (c :: deck))
        with (match pop_comprehension 0 n deck with
              | (inl e, d) => (inl e, d)
              | (inr cs, d) => (inr (c :: cs), d)
              end).
      rewrite IH.
      destruct (decide (n <= length deck)), (decide (S n <= length (c :: deck)));
        simpl in *; try lia; reflexivity.
Qed.

Lemma pick_up_ok g (player n : nat) :
  n <= length (deck g) ->
  _pick_up player n g
  = (inr (),
     set_players
       (alter (fun p => UnoPlayer.set_hand (UnoPlayer.hand p ++ take n (deck g)) p)
              player (players g))
       (set_deck (drop n (deck g)) g)).
Proof.
  intros Hn. unfold _pick_up, bind. rewrite pop_front_spec, decide_True by done.
  reflexivity.
Qed.

Lemma pick_up_short g (player n : nat) :
  length (deck g) < n ->
  _pick_up player n g = (inl pop_from_empty, set_deck [] g).
Proof.
  intros Hn. unfold _pick_up, bind. rewrite pop_front_spec, decide_False by lia.
  reflexivity.
Qed.


Lemma hand_pop_ok g (player : nat) (card : Z) (p : UnoPlayer.t) (c : UnoCard.t) :
  players g !! player = Some p ->
  py_getitem (UnoPlayer.hand p) card = inr c ->
  exists k,
    py_index (UnoPlayer.hand p) card = Some k
    /\ UnoPlayer.hand p !! k = Some c
    /\ hand_pop player card g
       = (inr c,
          set_players
            (alter (fun q => UnoPlayer.set_hand (delete k (UnoPlayer.hand p)) q)
                   player (players g)) g).
Proof.
  intros Hp (k & Hk & Hc & Hpop)%py_pop_of_getitem.
  exists k. split_and!; [done..|].
  unfold hand_pop, bind, hand_of, lift, alter_hand, modify, ret.
  rewrite Hp, Hpop. reflexivity.
Qed.

(** The card move itself, once the checks of [play] have passed: the card
    leaves the hand and lands on the deck, and the lookup of [card_type]
    raises.  Nothing of what follows it in [play] is ever run. *)
Lemma play_card_outcome g (player : nat) (card : Z) (new_color : value)
    (p : UnoPlayer.t) (k : nat) (c : UnoCard.t) :
  players g !! player = Some p ->
  py_index (UnoPlayer.hand p) card = Some k ->
  UnoPlayer.hand p !! k = Some c ->
  play_card player card new_color g
  = (inl (AttributeError "card_type"),
     pushed g player (delete k (UnoPlayer.hand p)) c).
Proof.
  intros Hp Hk Hc.
  assert (Hget : py_getitem (UnoPlayer.hand p) card = inr c).
  { apply py_getitem_inr. eauto. }
  destruct (hand_pop_ok g player card p c Hp Hget) as (k' & Hk' & _ & Hpop).
  assert (k' = k) by congruence. subst k'.
  unfold play_card. rewrite (bind_inr _ _ _ _ _ Hpop), bind_modify.
  reflexivity.
Qed.


(** The checks of [play], in the order in which the method makes them:
    the index of the player, *)
Lemma play_out_of_range g (player : Z) (card : option Z) (new_color : value) :
  ~ (0 <= player < Z.of_nat (length (players g)))%Z ->
  play player card new_color g
  = (inl (ValueError "Invalid player: index out of range"), g).
Proof.
  intros Hp. unfold play. unfold bind at 1. unfold get.
  destruct (Z.leb_spec 0 player), (Z.ltb_spec player (Z.of_nat (length (players g))));
    try lia; reflexivity.
Qed.

(** the turn, *)
Lemma play_out_of_turn g (player : Z) (card : option Z) (new_color : value) :
  (0 <= player < Z.of_nat (length (players g)))%Z ->
  _current_player g <> Z.to_nat player ->
  play player card new_color g = (inl (ValueError "Invalid player: not their turn"), g).
Proof.
  intros Hp Hturn. unfold play. unfold bind at 1. unfold get.
  destruct (Z.leb_spec 0 player), (Z.ltb_spec player (Z.of_nat (length (players g))));
    try lia.
  rewrite bool_decide_eq_false_2 by done. reflexivity.
Qed.

(** and, for the current player, the draw move, which has no further check, *)
Lemma play_draw g (player : Z) (new_color : value) :
  (0 <= player < Z.of_nat (length (players g)))%Z ->
  _current_player g = Z.to_nat player ->
  play player None new_color g
  = bind (_pick_up (Z.to_nat player) 1) (fun _ => next) g.
Proof.
  intros Hp Hturn. unfold play. unfold bind at 1. unfold get.
  destruct (Z.leb_spec 0 player), (Z.ltb_spec player (Z.of_nat (length (players g))));
    try lia.
  rewrite bool_decide_eq_true_2 by done. reflexivity.
Qed.

(** or the card move: the index of the card, the current card, playability,
    the colour argument for a card whose colour is the string ['black'], and
    that the game is not over. *)
Lemma play_checks g (player card : Z) (new_color : value) (p : UnoPlayer.t) :
  (0 <= player < Z.of_nat (length (players g)))%Z ->
  _current_player g = Z.to_nat player ->
  players g !! Z.to_nat player = Some p ->
  play player (Some card) new_color g
  = match py_getitem (UnoPlayer.hand p) card with
    | inl e => (inl e, g)
    | inr _card =>
        match py_getitem (deck g) (-1) with
        | inl e => (inl e, g)
        | inr top =>
            if negb (UnoCard.playable top _card)
            then (inl (ValueError "Invalid card: not playable"), g)
            else if py_eq (UnoCard.color _card) (VStr "black") && negb (in_COLORS new_color)
            then (inl (ValueError "Invalid new_color: must be red, yellow, green or blue"), g)
            else if negb (is_active g) then (inl (ValueError "Game is over"), g)
            else play_card (Z.to_nat player) card new_color g
        end
    end.
Proof.
  intros Hp Hturn Hplayer. unfold play. unfold bind at 1. unfold get.
  destruct (Z.leb_spec 0 player), (Z.ltb_spec player (Z.of_nat (length (players g))));
    try lia.
  rewrite bool_decide_eq_true_2 by done. cbn [negb andb].
  unfold bind, hand_of, lift, current_card, raise, get. rewrite Hplayer.
  destruct (py_getitem (UnoPlayer.hand p) card) as [e|_card]; [done|].
  destruct (py_getitem (deck g) (-1)) as [e|top]; [done|].
  destruct (negb (UnoCard.playable top _card)); [done|].
  destruct (_ && _); [done|].
  destruct (negb (is_active g)); done.
Qed.

End GameOperations.
(** ** The game: what every method keeps between the fields *)

Section GameInvariant.
Import UnoGame.
Implicit Types (g : t).

Lemma preserves_bind {A B : Type} (m : M A) (k : A -> M B) :
  preserves m -> (forall a, preserves (k a)) -> preserves (bind m k).
Proof.
  intros Hm Hk g Hg. unfold bind. specialize (Hm g Hg).
  destruct (m g) as [[e|a] g1]; simpl in *; [done|]. by apply Hk.
Qed.

Lemma preserves_ret {A : Type} (a : A) : preserves (ret a).
Proof. by intros g Hg. Qed.

Lemma preserves_raise {A : Type} (e : PyError) : preserves (@raise A e).
Proof. by intros g Hg. Qed.

Lemma preserves_lift {A : Type} (r : result A) : preserves (lift r).
Proof. by intros g Hg. Qed.

Lemma preserves_get : preserves get.
Proof. by intros g Hg. Qed.

Lemma preserves_hand_of (i : nat) : preserves (hand_of i).
Proof. intros g Hg. unfold hand_of. by destruct (players g !! i). Qed.

Lemma preserves_current_card : preserves current_card.
Proof. by intros g Hg. Qed.

Lemma preserves_modify (f : t -> t) :
  (forall g, consistent g -> consistent (f g)) -> preserves (modify f).
Proof. intros Hf g Hg. by apply Hf. Qed.

Lemma preserves_set_deck (f : t -> list UnoCard.t) :
  preserves (modify (fun g => set_deck (f g) g)).
Proof. apply preserves_modify. intros g Hg. exact Hg. Qed.

Lemma preserves_set_winner (w : option nat) : preserves (modify (set_winner w)).
Proof. apply preserves_modify. intros g Hg. exact Hg. Qed.

Lemma preserves_reverse :
  preserves (modify (fun g => set_cycle (ReversibleCycle.reverse (_player_cycle g)) g)).
Proof. apply preserves_modify. intros g Hg. exact Hg. Qed.

Lemma preserves_alter_hand (f : list UnoCard.t -> list UnoCard.t) (i : nat) :
  preserves (alter_hand f i).
Proof.
  apply preserves_modify. intros g (H1 & H2 & H3 & H4).
  unfold consistent. simpl. by rewrite length_alter.
Qed.

(** On a consistent game [next] never raises: it moves the cycle one seat
    in the direction of play and makes the player there current. *)
Lemma next_consistent g :
  consistent g ->
  next g
  = (inr (),
     set_current_player (seat_after g 1)
       (set_cycle (ReversibleCycle.mk (seq 0 (length (players g)))
                     (Some (Z.of_nat (seat_after g 1)))
                     (ReversibleCycle._reverse (_player_cycle g))) g)).
Proof.
  intros (Hitems & Hn & Hpos & Hcur).
  assert (Hne : seq 0 (length (players g)) <> []).
  { destruct (length (players g)); [lia|done]. }
  unfold next, ReversibleCycle.next. rewrite Hpos.
  rewrite set_pos_nonempty by (by rewrite Hitems). simpl.
  rewrite Hitems, length_seq.
  pose proof (Z.mod_pos_bound
                (Z.of_nat (_current_player g) + ReversibleCycle._delta (_player_cycle g))
                (Z.of_nat (length (players g))) ltac:(lia)) as Hb.
  pose proof (py_getitem_mod (seq 0 (length (players g)))
                (Z.of_nat (_current_player g) + ReversibleCycle._delta (_player_cycle g))
                Hne) as Hget.
  rewrite length_seq in Hget. rewrite Hget.
  rewrite lookup_seq_lt by lia. simpl.
  unfold seat_after. rewrite Z.mul_1_l, Z2Nat.id by lia. reflexivity.
Qed.

Lemma seat_after_lt g (steps : Z) :
  consistent g -> seat_after g steps < length (players g).
Proof.
  intros (_ & Hn & _). unfold seat_after.
  match goal with
  | |- Z.to_nat (?v `mod` ?n)%Z < _ => pose proof (Z.mod_pos_bound v n ltac:(lia))
  end. lia.
Qed.

Lemma preserves_next : preserves next.
Proof.
  intros g Hg. rewrite next_consistent by done. simpl.
  pose proof (seat_after_lt g 1 Hg). destruct Hg as (H1 & H2 & H3 & H4).
  unfold consistent. simpl. done.
Qed.

Lemma preserves_pick_up (player n : nat) : preserves (_pick_up player n).
Proof.
  apply preserves_bind; [|intros; apply preserves_alter_hand].
  intros g Hg. destruct (pop_comprehension 0 n (deck g)). by simpl.
Qed.

Create HintDb game_inv.
#[local] Hint Resolve preserves_ret preserves_raise preserves_lift preserves_get
  preserves_hand_of preserves_current_card preserves_set_deck preserves_set_winner
  preserves_reverse preserves_alter_hand preserves_next preserves_pick_up : game_inv.

(** One step through the text of a method. *)
Ltac preserves_step :=
  lazymatch goal with
  | |- forall _, preserves _ => intro
  | |- preserves (if ?b then _ else _) => destruct b
  | |- preserves (match ?x with Some _ => _ | None => _ end) => destruct x
  | |- preserves (bind _ _) => apply preserves_bind
  | |- preserves (let _ := _ in _) => cbv zeta
  end.

Lemma preserves_set_current_temp_color (new_color : value) :
  preserves (set_current_temp_color new_color).
Proof. unfold set_current_temp_color. repeat preserves_step; auto with game_inv. Qed.
#[local] Hint Resolve preserves_set_current_temp_color : game_inv.

Lemma preserves_resolve_effect (card_color card_type new_color : value) :
  preserves (resolve_effect card_color card_type new_color).
Proof. unfold resolve_effect. repeat preserves_step; auto with game_inv. Qed.
#[local] Hint Resolve preserves_resolve_effect : game_inv.

Lemma preserves_hand_pop (player : nat) (card : Z) : preserves (hand_pop player card).
Proof. unfold hand_pop. repeat preserves_step; auto with game_inv. Qed.
#[local] Hint Resolve preserves_hand_pop : game_inv.

Lemma preserves_play_card (player : nat) (card : Z) (new_color : value) :
  preserves (play_card player card new_color).
Proof. unfold play_card. repeat preserves_step; auto with game_inv. Qed.
#[local] Hint Resolve preserves_play_card : game_inv.

Lemma preserves_play (player : Z) (card : option Z) (new_color : value) :
  preserves (play player card new_color).
Proof. unfold play. repeat preserves_step; auto with game_inv. Qed.

End GameInvariant.

(** ** The game: what a call of [play] does *)

Section PlayCases.
Import UnoGame.
Implicit Types (g : t) (p : UnoPlayer.t) (c top : UnoCard.t).

Lemma set_deck_same g : set_deck (deck g) g = g.
Proof. by destruct g. Qed.

Lemma cycle_next_keeps {A : Type} (cy cy' : ReversibleCycle.t A) (x : A) :
  ReversibleCycle.next cy = inr (x, cy') ->
  ReversibleCycle._items cy' = ReversibleCycle._items cy
  /\ ReversibleCycle._reverse cy' = ReversibleCycle._reverse cy.
Proof.
  intros H. destruct (decide (ReversibleCycle._items cy = [])) as [Hnil|Hne].
  - unfold ReversibleCycle.next, ReversibleCycle.set_pos in H. rewrite Hnil in H.
    by destruct (ReversibleCycle._pos cy).
  - destruct (next_total cy Hne) as (y & cy2 & Hy & Hitems & Hrev).
    rewrite Hy in H. by simplify_eq.
Qed.

(** A step of the turn raises and changes nothing, or changes the cycle
    and the current player and nothing else. *)
Lemma next_cases g :
  (exists e, next g = (inl e, g))
  \/ (exists q cy,
        next g = (inr (), set_current_player q (set_cycle cy g))
        /\ ReversibleCycle._reverse cy = ReversibleCycle._reverse (_player_cycle g)).
Proof.
  unfold next. destruct (ReversibleCycle.next (_player_cycle g)) as [e|[q cy]] eqn:Hn.
  - left. by eexists.
  - right. exists q, cy. split; [done|]. by apply cycle_next_keeps in Hn as [_ ?].
Qed.

(** The three ways in which a call of [play] ends.  It raises before it has
    changed anything: one of the errors of the checks, or a draw move on the
    empty deck.  Or it is a draw move on a deck that is not empty: the
    player draws and the turn is stepped.  Or it is a card move that has
    passed the checks: the card is moved and the call raises. *)
Lemma play_cases g (player : Z) (card : option Z) (new_color : value) :
  (exists e,
      play player card new_color g = (inl e, g)
      /\ (validation_error e = true \/ (card = None /\ e = pop_from_empty)))
  \/ (card = None
      /\ (0 <= player < Z.of_nat (length (players g)))%Z
      /\ _current_player g = Z.to_nat player
      /\ deck g <> []
      /\ play player card new_color g = next (drew g (Z.to_nat player)))
  \/ (exists i p k c,
        card = Some i
        /\ _current_player g = Z.to_nat player
        /\ players g !! Z.to_nat player = Some p
        /\ py_index (UnoPlayer.hand p) i = Some k
        /\ UnoPlayer.hand p !! k = Some c
        /\ play player card new_color g
           = (inl (AttributeError "card_type"),
              pushed g (Z.to_nat player) (delete k (UnoPlayer.hand p)) c)).
Proof.
  destruct (decide (0 <= player < Z.of_nat (length (players g)))%Z) as [Hp|Hp];
    [|left; rewrite play_out_of_range by done; eauto].
  destruct (decide (_current_player g = Z.to_nat player)) as [Hturn|Hturn];
    [|left; rewrite play_out_of_turn by done; eauto].
  destruct card as [i|].
  - destruct (lookup_lt_is_Some_2 (players g) (Z.to_nat player) ltac:(lia))
      as [p Hplayer].
    rewrite (play_checks g player i new_color p) by done.
    destruct (py_getitem (UnoPlayer.hand p) i) as [e|c] eqn:Hc.
    { left. pose proof (py_getitem_inl _ _ _ Hc) as He. subst e. eauto. }
    destruct (py_getitem (deck g) (-1)) as [e|top] eqn:Htop.
    { left. pose proof (py_getitem_inl _ _ _ Htop) as He. subst e. eauto. }
    destruct (negb (UnoCard.playable top c)); [left; eauto|].
    destruct (_ && _); [left; eauto|].
    destruct (negb (is_active g)); [left; eauto|].
    apply py_getitem_inr in Hc as (k & Hk & Hck).
    right. right. exists i, p, k, c. do 5 (split; [done|]).
    by apply play_card_outcome.
  - rewrite play_draw by done.
    destruct (deck g) as [|c d] eqn:Hd.
    + left. exists pop_from_empty. split; [|by right].
      rewrite (bind_inl _ _ _ _ _
                 (pick_up_short g _ 1 ltac:(rewrite Hd; simpl; lia))).
      f_equal. rewrite <- Hd. apply set_deck_same.
    + right. left. do 4 (split; [done|]).
      rewrite (bind_inr _ _ _ _ _
                 (pick_up_ok g _ 1 ltac:(rewrite Hd; simpl; lia))).
      reflexivity.
Qed.

Lemma hands_set (hand' : list UnoCard.t) (i : nat) (ps : list UnoPlayer.t) :
  map UnoPlayer.hand (alter (fun q => UnoPlayer.set_hand hand' q) i ps)
  = <[i := hand']> (map UnoPlayer.hand ps).
Proof.
  revert i. induction ps as [|q ps IH]; intros i; [done|].
  destruct i as [|i]; simpl; [done|]. f_equal. apply IH.
Qed.

Lemma hands_extend (cards : list UnoCard.t) (i : nat) (ps : list UnoPlayer.t) :
  map UnoPlayer.hand
    (alter (fun q => UnoPlayer.set_hand (UnoPlayer.hand q ++ cards) q) i ps)
  = alter (fun h => h ++ cards) i (map UnoPlayer.hand ps).
Proof.
  revert i. induction ps as [|q ps IH]; intros i; [done|].
  destruct i as [|i]; simpl; [done|]. f_equal. apply IH.
Qed.

Lemma ids_alter_hand (f : UnoPlayer.t -> list UnoCard.t) (i : nat) (ps : list UnoPlayer.t) :
  map UnoPlayer.player_id (alter (fun q => UnoPlayer.set_hand (f q) q) i ps)
  = map UnoPlayer.player_id ps.
Proof.
  revert i. induction ps as [|q ps IH]; intros i; [done|].
  destruct i as [|i]; simpl; [done|]. f_equal. apply IH.
Qed.






(** No call of [play] records a winner. *)
Lemma play_keeps_winner g (player : Z) (card : option Z) (new_color : value) :
  _winner (snd (play player card new_color g)) = _winner g.
Proof.
  destruct (play_cases g player card new_color)
    as [(e & -> & _)|[(_ & _ & _ & _ & ->)|(i & p & k & c & _ & _ & _ & _ & _ & ->)]];
    [reflexivity| |reflexivity].
  destruct (next_cases (drew g (Z.to_nat player))) as [[e ->]|(q & cy & -> & _)];
    reflexivity.
Qed.


Lemma next_turned g : consistent g -> next g = (inr (), turned g).
Proof. apply next_consistent. Qed.

End PlayCases.

Section CardMoves.
Import UnoGame.
Implicit Types (g : t) (p : UnoPlayer.t) (c top : UnoCard.t).

(** A card move that passes the checks: the card is moved and the call
    raises. *)
Lemma legal_card_outcome g p (card : Z) (k : nat) c (new_color : value) :
  legal_card g p card k c new_color ->
  play (Z.of_nat (_current_player g)) (Some card) new_color g
  = (inl (AttributeError "card_type"),
     pushed g (_current_player g) (delete k (UnoPlayer.hand p)) c).
Proof.
  intros (Hp & Hk & Hc & (top & Htop & Hplayable) & Hcolor & Hactive).
  pose proof (lookup_lt_Some _ _ _ Hp) as Hcur.
  rewrite (play_checks g _ card new_color p);
    [|lia|by rewrite Nat2Z.id|by rewrite Nat2Z.id].
  assert (Hget : py_getitem (UnoPlayer.hand p) card = inr c).
  { apply py_getitem_inr. eauto. }
  rewrite Hget, Htop, Hplayable. cbn [negb].
  assert (Hcheck : py_eq (UnoCard.color c) (VStr "black") && negb (in_COLORS new_color)
                   = false).
  { destruct (py_eq (UnoCard.color c) (VStr "black")) eqn:Hblack; [|done].
    apply py_eq_true in Hblack. by rewrite (Hcolor Hblack). }
  rewrite Hcheck, Hactive. cbn [negb]. rewrite Nat2Z.id.
  by apply play_card_outcome.
Qed.

(** The colour argument does not enter the checks of a card whose colour
    is a member. *)
Lemma legal_card_member g p (card : Z) (k : nat) c (new_color new_color' : value) :
  enum_class (UnoCard.color c) <> None ->
  legal_card g p card k c new_color -> legal_card g p card k c new_color'.
Proof.
  intros Hmember (Hp & Hk & Hc & Htop & _ & Hactive).
  split_and!; try done. intros Hblack. rewrite Hblack in Hmember. done.
Qed.


End CardMoves.


(** C3: the play of a last card sets no winner.  Player 0 puts down the
    only card of the hand: the card is moved, the call raises at the lookup
    of [card_type], before the winner is recorded, and the winner stays
    [None]; the turn has not passed, as the claim says.  The game is not
    terminal then: the draw move of player 0 is accepted, the player holds a
    card again, the turn passes to player 1 and the game is active.  No call
    of [play] on any game ever sets the winner. *)
Theorem win_not_recorded :
  let g1 := pushed last_card_table 0 [] (card RED N5) in
  UnoGame.play 0 (Some 0%Z) VNone last_card_table
  = (inl (AttributeError "card_type"), g1)
  /\ hands g1 = [[]; [card GREEN N1]]
  /\ UnoGame._winner g1 = None
  /\ UnoGame._current_player g1 = 0
  /\ UnoGame.is_active g1 = false
  /\ (exists g2,
        UnoGame.play 0 None VNone g1 = (inr (), g2)
        /\ hands g2 = [[card BLUE N7]; [card GREEN N1]]
        /\ UnoGame._current_player g2 = 1
        /\ UnoGame._winner g2 = None
        /\ UnoGame.is_active g2 = true)
  /\ (forall (g : UnoGame.t) (player : Z) (card : option Z) (new_color : value),
        UnoGame._winner (snd (UnoGame.play player card new_color g))
        = UnoGame._winner g).
Proof.
  split_and!; try reflexivity.
  - exists (snd (UnoGame.play 0 None VNone (pushed last_card_table 0 [] (card RED N5)))).
    split_and!; vm_compute; reflexivity.
  - intros g player card new_color. apply play_keeps_winner.
Qed.

(** C7: a wild-draw-four takes no effect and needs no colour.  Played
    without a colour it is not rejected: it leaves the hand and lands on the
    deck, and the call raises afterwards.  Played with red the outcome is
    the very same: the card on top carries no chosen colour, the other
    player has drawn nothing, and the turn has not passed.  So it is with
    every black card that is playable, on every game that is active. *)
Theorem wild_draw_four_no_effect :
  let g1 := pushed wild_table 0 [card BLACK WILDCARD; card RED N1] (card BLACK PLUS4) in
  UnoGame.play 0 (Some 0%Z) VNone wild_table = (inl (AttributeError "card_type"), g1)
  /\ UnoGame.play 0 (Some 0%Z) (VColor RED) wild_table
     = (inl (AttributeError "card_type"), g1)
  /\ UnoGame.current_card g1 = (inr (card BLACK PLUS4), g1)
  /\ color_in_effect (card BLACK PLUS4) = VColor BLACK
  /\ hands g1 = [[card BLACK WILDCARD; card RED N1]; [card GREEN N2]]
  /\ UnoGame.deck g1 = UnoGame.deck wild_table ++ [card BLACK PLUS4]
  /\ UnoGame._current_player g1 = 0
  /\ (forall (g : UnoGame.t) (p : UnoPlayer.t) (card : Z) (k : nat) (c : UnoCard.t)
             (new_color : value),
        legal_card g p card k c VNone ->
        UnoCard.color c = VColor BLACK ->
        UnoGame.play (Z.of_nat (UnoGame._current_player g)) (Some card) new_color g
        = (inl (AttributeError "card_type"),
           pushed g (UnoGame._current_player g) (delete k (UnoPlayer.hand p)) c)).
Proof.
  split_and!; try reflexivity.
  intros g p card k c new_color Hlegal Hblack.
  apply legal_card_outcome.
  apply (legal_card_member g p card k c VNone); [by rewrite Hblack|done].
Qed.


(** * Further properties of the code *)

(** ** The reversible cycle in general *)

Section CycleOrder.
Context {A : Type}.
Implicit Types (c : ReversibleCycle.t A) (items : list A).

(** Where [next] lands: one step from the position, or on the first or last
    item when the cycle has not started. *)
Lemma next_at c :
  ReversibleCycle._items c <> [] ->
  let value :=
    match ReversibleCycle._pos c with
    | None => if ReversibleCycle._reverse c then (-1)%Z else 0%Z
    | Some p => (p + ReversibleCycle._delta c)%Z
    end in
  let p' := (value `mod` Z.of_nat (length (ReversibleCycle._items c)))%Z in
  (0 <= p' < Z.of_nat (length (ReversibleCycle._items c)))%Z
  /\ exists x,
      ReversibleCycle._items c !! Z.to_nat p' = Some x
      /\ ReversibleCycle.next c
         = inr (x, ReversibleCycle.mk (ReversibleCycle._items c) (Some p')
                     (ReversibleCycle._reverse c)).
Proof.
  intros Hne value p'.
  assert (0 < length (ReversibleCycle._items c))
    by (destruct (ReversibleCycle._items c); simpl; [done|lia]).
  pose proof (Z.mod_pos_bound value (Z.of_nat (length (ReversibleCycle._items c)))
                ltac:(lia)) as Hb.
  split; [exact Hb|].
  destruct (lookup_lt_is_Some_2 (ReversibleCycle._items c) (Z.to_nat p') ltac:(lia))
    as [x Hx].
  exists x. split; [exact Hx|].
  unfold ReversibleCycle.next. fold value.
  replace (match ReversibleCycle._pos c with
           | Some p => ReversibleCycle.set_pos c (p + ReversibleCycle._delta c)
           | None => ReversibleCycle.set_pos c
                       (if ReversibleCycle._reverse c then (-1)%Z else 0%Z)
           end) with (ReversibleCycle.set_pos c value)
    by (subst value; by destruct (ReversibleCycle._pos c)).
  rewrite set_pos_nonempty by done. simpl.
  rewrite py_getitem_mod by done. fold p'. by rewrite Hx.
Qed.

(** The items that [k] calls of [next] return, from a cycle wherever it
    stands: the [j]-th of them is [j + 1] steps from the position. *)
Lemma advances_started items (rev : bool) (p : Z) (k : nat) :
  items <> [] ->
  exists l,
    ReversibleCycle.advances k (ReversibleCycle.mk items (Some p) rev) = Some l
    /\ length l = k
    /\ forall j, j < k ->
         l !! j
         = items !! Z.to_nat ((p + (Z.of_nat j + 1) * (if rev then -1 else 1))
                              `mod` Z.of_nat (length items))%Z.
Proof.
  intros Hne. revert p. induction k as [|k IH]; intros p.
  - exists []. split_and!; [done..|]. intros j Hj. lia.
  - destruct (next_at (ReversibleCycle.mk items (Some p) rev) Hne) as (Hb & x & Hx & Hnext).
    simpl in Hb, Hx, Hnext. unfold ReversibleCycle._delta in *. simpl in *.
    destruct (IH ((p + (if rev then -1 else 1)) `mod` Z.of_nat (length items))%Z)
      as (l & Hl & Hlen & Hnth).
    exists (x :: l). split_and!.
    + rewrite Hnext, Hl. reflexivity.
    + simpl. by rewrite Hlen.
    + intros [|j] Hj.
      * simpl. rewrite <- Hx. do 3 f_equal. lia.
      * simpl. rewrite Hnth by lia. rewrite Zplus_mod_idemp_l. do 3 f_equal. lia.
Qed.

End CycleOrder.

Lemma advances_fresh {A : Type} (items : list A) (rev : bool) (k : nat) :
  items <> [] ->
  exists l,
    ReversibleCycle.advances k (ReversibleCycle.mk items None rev) = Some l
    /\ length l = k
    /\ forall j, j < k ->
         l !! j
         = items !! Z.to_nat (((if rev then -1 else 0)
                               + Z.of_nat j * (if rev then -1 else 1))
                              `mod` Z.of_nat (length items))%Z.
Proof.
  intros Hne. destruct k as [|k].
  - exists []. split_and!; [done..|]. intros j Hj. lia.
  - destruct (next_at (ReversibleCycle.mk items None rev) Hne) as (Hb & x & Hx & Hnext).
    simpl in Hb, Hx, Hnext.
    destruct (advances_started items rev
                ((if rev then -1 else 0) `mod` Z.of_nat (length items))%Z k Hne)
      as (l & Hl & Hlen & Hnth).
    exists (x :: l). split_and!.
    + simpl. rewrite Hnext, Hl. reflexivity.
    + simpl. by rewrite Hlen.
    + intros [|j] Hj.
      * simpl. rewrite <- Hx. do 3 f_equal. lia.
      * simpl. rewrite Hnth by lia. rewrite Zplus_mod_idemp_l. do 3 f_equal. lia.
Qed.

(** X1: [__next__] raises on a cycle over no item only, and then a
    ZeroDivisionError; on any other cycle, even one whose position is not an
    index of its items, it returns the item at the new position, which is an
    index, and leaves the items and the direction as they were. *)
Theorem cycle_next_spec {A : Type} (c : ReversibleCycle.t A) :
  match ReversibleCycle.next c with
  | inl e =>
      ReversibleCycle._items c = [] /\ e = ZeroDivisionError "integer modulo by zero"
  | inr (x, c') =>
      exists p,
        ReversibleCycle._pos c' = Some p
        /\ (0 <= p < Z.of_nat (length (ReversibleCycle._items c)))%Z
        /\ ReversibleCycle._items c !! Z.to_nat p = Some x
        /\ ReversibleCycle._items c' = ReversibleCycle._items c
        /\ ReversibleCycle._reverse c' = ReversibleCycle._reverse c
  end.
Proof.
  destruct (decide (ReversibleCycle._items c = [])) as [Hnil|Hne].
  - unfold ReversibleCycle.next, ReversibleCycle.set_pos. rewrite Hnil.
    by destruct (ReversibleCycle._pos c).
  - destruct (next_at c Hne) as (Hb & x & Hx & ->).
    eexists. split; [reflexivity|]. split; [exact Hb|]. split; [exact Hx|].
    split; reflexivity.
Qed.

(** X2: a fresh cycle over at least one item behaves as an endless
    repetition of its items: the calls of [next] return them in order, over
    and over; when [reverse] is called first they return the items in
    reverse order, over and over. *)
Theorem cycle_order {A : Type} (items : list A) (k : nat) :
  items <> [] ->
  (exists l,
      ReversibleCycle.advances k (ReversibleCycle.init items) = Some l
      /\ length l = k
      /\ forall j, j < k -> l !! j = items !! (j mod length items))
  /\ (exists l,
         ReversibleCycle.advances k (ReversibleCycle.reverse (ReversibleCycle.init items))
         = Some l
         /\ length l = k
         /\ forall j, j < k -> l !! j = reverse items !! (j mod length items)).
Proof.
  intros Hne.
  assert (Hlen : 0 < length items) by (destruct items; simpl; [done|lia]).
  split.
  - destruct (advances_fresh items false k Hne) as (l & Hl & Hk & Hnth).
    exists l. split_and!; [exact Hl|exact Hk|].
    intros j Hj. rewrite Hnth by done. f_equal.
    rewrite Z.add_0_l, Z.mul_1_r, <- Nat2Z.inj_mod. apply Nat2Z.id.
  - destruct (advances_fresh items true k Hne) as (l & Hl & Hk & Hnth).
    exists l. split_and!; [exact Hl|exact Hk|].
    intros j Hj. rewrite Hnth by done.
    pose proof (Nat.mod_upper_bound j (length items) ltac:(lia)) as Hm.
    rewrite reverse_lookup by done. f_equal.
    replace ((-1 + Z.of_nat j * -1) `mod` Z.of_nat (length items))%Z
      with (Z.of_nat (length items) - 1 - Z.of_nat (j mod length items))%Z; [lia|].
    apply Z.mod_unique with (q := (- Z.of_nat (j / length items) - 1)%Z); [lia|].
    pose proof (Nat.div_mod_eq j (length items)) as Hdiv.
    apply (f_equal Z.of_nat) in Hdiv. rewrite Nat2Z.inj_add, Nat2Z.inj_mul in Hdiv. lia.
Qed.

Lemma cycle_order_witness :
  exists l,
    ReversibleCycle.advances 5 (ReversibleCycle.init [10; 20]) = Some l
    /\ length l = 5
    /\ forall j, j < 5 -> l !! j = [10; 20] !! (j mod 2).
Proof.
  apply (cycle_order [10; 20] 5). discriminate.
Defined.

(** X3: one step, [reverse], one step: the cycle is back at the position
    from which it started, with the direction flipped, whatever the
    direction was. *)
Theorem cycle_step_back {A : Type} (c : ReversibleCycle.t A) (p : Z) :
  ReversibleCycle._pos c = Some p ->
  (0 <= p < Z.of_nat (length (ReversibleCycle._items c)))%Z ->
  exists x c1 y c2,
    ReversibleCycle.next c = inr (x, c1)
    /\ ReversibleCycle.next (ReversibleCycle.reverse c1) = inr (y, c2)
    /\ ReversibleCycle._pos c2 = Some p
    /\ ReversibleCycle._items c !! Z.to_nat p = Some y
    /\ ReversibleCycle._reverse c2 = negb (ReversibleCycle._reverse c).
Proof.
  intros Hpos Hp.
  assert (Hne : ReversibleCycle._items c <> []).
  { intros Hnil. rewrite Hnil in Hp. simpl in Hp. lia. }
  destruct (next_at c Hne) as (Hb & x & Hx & Hnext). rewrite Hpos in Hb, Hx, Hnext.
  set (c1 := ReversibleCycle.mk _ _ _) in Hnext.
  destruct (next_at (ReversibleCycle.reverse c1) Hne) as (Hb2 & y & Hy & Hnext2).
  simpl in Hb2, Hy, Hnext2.
  assert (Hback : (((p + ReversibleCycle._delta c)
                      `mod` Z.of_nat (length (ReversibleCycle._items c))
                    + ReversibleCycle._delta (ReversibleCycle.reverse c1))
                   `mod` Z.of_nat (length (ReversibleCycle._items c)) = p)%Z).
  { rewrite Zplus_mod_idemp_l. unfold ReversibleCycle._delta. simpl.
    transitivity (p `mod` Z.of_nat (length (ReversibleCycle._items c)))%Z;
      [|apply Z.mod_small; lia].
    f_equal. destruct (ReversibleCycle._reverse c); simpl; lia. }
  rewrite Hback in Hy, Hnext2.
  exists x, c1, y. eexists. split_and!; [exact Hnext|exact Hnext2|reflexivity|exact Hy|reflexivity].
Qed.

Lemma cycle_step_back_witness :
  exists x c1 y c2,
    ReversibleCycle.next (ReversibleCycle.mk [10; 20; 30] (Some 0%Z) false) = inr (x, c1)
    /\ ReversibleCycle.next (ReversibleCycle.reverse c1) = inr (y, c2)
    /\ ReversibleCycle._pos c2 = Some 0%Z.
Proof.
  destruct (cycle_step_back (ReversibleCycle.mk [10; 20; 30] (Some 0%Z) false) 0)
    as (x & c1 & y & c2 & H1 & H2 & H3 & _).
  - reflexivity.
  - simpl. lia.
  - exists x, c1, y, c2. split_and!; [exact H1|exact H2|exact H3].
Defined.

(** ** Dealing *)

Lemma py_index_last {A : Type} (l : list A) (x : A) :
  py_index (l ++ [x]) (-1) = Some (length l).
Proof.
  unfold py_index. rewrite length_app. simpl length.
  change (0 <=? -1)%Z with false. cbv iota.
  destruct (Z.leb_spec (- Z.of_nat (length l + 1)) (-1)); [|lia].
  f_equal. lia.
Qed.

Lemma py_pop_last {A : Type} (l : list A) (x : A) :
  py_pop (l ++ [x]) (-1) = inr (x, l).
Proof.
  unfold py_pop. rewrite py_index_last, list_lookup_middle by done.
  rewrite delete_middle, app_nil_r. by destruct l.
Qed.

(** Popping [n] cards from the end: the last card comes first; on a deck
    too short every card is popped before the pop that raises. *)
Lemma pop_back_spec (n : nat) (deck : list UnoCard.t) :
  pop_comprehension (-1) n deck
  = if decide (n <= length deck)
    then (inr (take n (reverse deck)), take (length deck - n) deck)
    else (inl pop_from_empty, []).
Proof.
  revert deck. induction n as [|n IH]; intros deck.
  - destruct (decide (0 <= length deck)); [|lia]. simpl.
    by rewrite Nat.sub_0_r, firstn_all.
  - destruct (decide (deck = [])) as [->|Hne].
    + destruct (decide (S n <= length (@nil UnoCard.t))) as [Hle|_]; [simpl in Hle; lia|].
      reflexivity.
    + destruct (exists_last Hne) as (d & x & ->).
      change (pop_comprehension (-1) (S n) (d ++ [x]))
        with (match py_pop (d ++ [x]) (-1) with
              | inl e => (inl e, d ++ [x])
              | inr (c, deck') =>
                  match pop_comprehension (-1) n deck' with
                  | (inl e, d0) => (inl e, d0)
                  | (inr cs, d0) => (inr (c :: cs), d0)
                  end
              end).
      rewrite py_pop_last, IH, reverse_snoc, length_app. simpl length.
      destruct (decide (n <= length d)), (decide (S n <= length d + 1)); try lia.
      * replace (length d + 1 - S n) with (length d - n) by lia.
        rewrite take_app_le by lia. reflexivity.
      * reflexivity.
Qed.

(** X4: [_deal_hand] returns the last seven cards of the deck, the last one
    first, and leaves the cards before them in the deck; on a deck of fewer
    than seven cards it raises 'pop from empty list' and the deck is left
    empty. *)
Theorem deal_hand_spec (deck : list UnoCard.t) :
  match UnoGame._deal_hand deck with
  | (inr hand, deck') => length hand = 7 /\ deck = deck' ++ reverse hand
  | (inl e, deck') => length deck < 7 /\ e = pop_from_empty /\ deck' = []
  end.
Proof.
  unfold UnoGame._deal_hand. rewrite pop_back_spec.
  destruct (decide (7 <= length deck)) as [Hlen|Hlen].
  - split.
    + rewrite length_take, length_reverse. lia.
    + rewrite take_reverse, list.reverse_involutive. symmetry. apply take_drop.
  - split_and!; [lia|done|done].
Qed.



(** X11: [UnoGame(players, random)] returns for no number of players.
    Outside 2..15 it raises the [ValueError] of its own check; inside, it
    raises the error of the first card that [_create_deck] tries to make,
    before any player is seated. *)
Theorem game_construction_raises (py : CPython) (players : Z) (random : bool)
    (shuffle : list UnoCard.t -> list UnoCard.t) :
  UnoGame.init py players random shuffle
  = inl (if decide (2 <= players <= 15)%Z
         then match py with
              | Py3_11 => ValueError "Invalid color"
              | Py3_12 => AttributeError "BLACK"
              end
         else ValueError "Invalid game: must be between 2 and 15 players").
Proof.
  unfold UnoGame.init.
  destruct (decide (2 <= players <= 15)%Z) as [Hn|Hn];
    destruct (Z.leb_spec 2 players), (Z.leb_spec players 15); try lia;
    cbn [negb andb]; try reflexivity.
  unfold UnoGame._create_deck. by destruct py.
Qed.

(** ** Moves of the current player *)

(** X6: [_pick_up(player, n)] for a seated player takes the first [n] cards
    of the deck and appends them, in that order, to the hand; nothing else
    changes.  On a deck of fewer than [n] cards it raises 'pop from empty
    list', the deck is left empty and no hand has changed. *)
Theorem pick_up_spec (g : UnoGame.t) (player n : nat) :
  player < length (UnoGame.players g) ->
  if decide (n <= length (UnoGame.deck g))
  then exists g',
      UnoGame._pick_up player n g = (inr (), g')
      /\ UnoGame.deck g = take n (UnoGame.deck g) ++ UnoGame.deck g'
      /\ hands g' = alter (fun h => h ++ take n (UnoGame.deck g)) player (hands g)
      /\ length (take n (UnoGame.deck g)) = n
      /\ seat_ids g' = seat_ids g
      /\ UnoGame._player_cycle g' = UnoGame._player_cycle g
      /\ UnoGame._current_player g' = UnoGame._current_player g
      /\ UnoGame._winner g' = UnoGame._winner g
  else exists g',
      UnoGame._pick_up player n g = (inl pop_from_empty, g')
      /\ UnoGame.deck g' = []
      /\ UnoGame.players g' = UnoGame.players g.
Proof.
  intros Hplayer. destruct (decide (n <= length (UnoGame.deck g))) as [Hn|Hn].
  - rewrite pick_up_ok by done. eexists. split; [reflexivity|]. simpl.
    split_and!; try reflexivity.
    + by rewrite take_drop.
    + apply hands_extend.
    + by apply length_take_le.
    + apply (ids_alter_hand (fun q => UnoPlayer.hand q ++ take n (UnoGame.deck g))).
  - rewrite pick_up_short by lia. eexists. split_and!; reflexivity.
Qed.

Lemma pick_up_spec_witness :
  exists g',
    UnoGame._pick_up 1 2 small_table = (inr (), g')
    /\ length (UnoGame.deck g') = 2.
Proof.
  pose proof (pick_up_spec small_table 1 2) as H.
  destruct (decide (2 <= length (UnoGame.deck small_table))) as [_|Hn].
  - destruct H as (g' & Hg' & Hdeck & _).
    + vm_compute. lia.
    + exists g'. split; [exact Hg'|].
      assert (Hlen : length (UnoGame.deck small_table) = 4)
        by (vm_compute; reflexivity).
      apply (f_equal length) in Hdeck. rewrite length_app, length_take in Hdeck. lia.
  - exfalso. apply Hn. vm_compute. lia.
Defined.

(** X7: a draw move of the current player, on a deck that is not empty,
    returns: the player holds the first card of the deck as the new last card
    of the hand, the turn has passed one seat on in the direction of play,
    and nothing else has changed (the direction, the winner, the identifiers
    of the players and the seats of the cycle are as they were), whatever
    the card drawn, the colour argument, and whether or not the game is
    over.  On the empty deck the
    move raises 'pop from empty list' and the game is as it was. *)
Theorem draw_move (g : UnoGame.t) (new_color : value) :
  consistent g ->
  match UnoGame.deck g with
  | [] =>
      UnoGame.play (Z.of_nat (UnoGame._current_player g)) None new_color g
      = (inl pop_from_empty, g)
  | c :: d =>
      exists g',
        UnoGame.play (Z.of_nat (UnoGame._current_player g)) None new_color g = (inr (), g')
        /\ UnoGame.deck g' = d
        /\ hands g' = alter (fun h => h ++ [c]) (UnoGame._current_player g) (hands g)
        /\ UnoGame._current_player g' = seat_after g 1
        /\ ReversibleCycle._reverse (UnoGame._player_cycle g')
           = ReversibleCycle._reverse (UnoGame._player_cycle g)
        /\ UnoGame._winner g' = UnoGame._winner g
        /\ seat_ids g' = seat_ids g
        /\ ReversibleCycle._items (UnoGame._player_cycle g')
           = ReversibleCycle._items (UnoGame._player_cycle g)
  end.
Proof.
  intros Hg.
  assert (Hcur : UnoGame._current_player g < length (UnoGame.players g)) by apply Hg.
  rewrite play_draw; [|lia|by rewrite Nat2Z.id].
  rewrite Nat2Z.id.
  destruct (UnoGame.deck g) as [|c d] eqn:Hd.
  - rewrite (bind_inl _ _ _ _ _ (pick_up_short g _ 1 ltac:(rewrite Hd; simpl; lia))).
    f_equal. rewrite <- Hd. apply set_deck_same.
  - rewrite (bind_inr _ _ _ _ _ (pick_up_ok g _ 1 ltac:(rewrite Hd; simpl; lia))).
    rewrite Hd. simpl take. simpl drop. rewrite drop_0.
    set (g1 := UnoGame.set_players _ _).
    assert (Hg1 : consistent g1).
    { destruct Hg as (H1 & H2 & H3 & H4). unfold consistent. subst g1. simpl.
      by rewrite length_alter. }
    rewrite (next_turned g1 Hg1). eexists. split; [reflexivity|].
    assert (Hseat : seat_after g1 1 = seat_after g 1).
    { unfold seat_after. subst g1. simpl. by rewrite length_alter. }
    simpl. split_and!; try done.
    + apply hands_extend.
    + apply (ids_alter_hand (fun q => UnoPlayer.hand q ++ [c])).
    + rewrite length_alter. symmetry. apply Hg.
Qed.

Lemma draw_move_witness :
  exists g',
    UnoGame.play 0 None VNone small_table = (inr (), g')
    /\ UnoGame._current_player g' = 1.
Proof.
  assert (Hg : consistent small_table)
    by (repeat split; vm_compute; (reflexivity || lia)).
  pose proof (draw_move small_table VNone Hg) as H.
  destruct (UnoGame.deck small_table) as [|c d] eqn:Hd.
  - vm_compute in Hd. discriminate Hd.
  - destruct H as (g' & Hplay & _ & _ & Hcur & _).
    exists g'. split; [exact Hplay|]. rewrite Hcur. reflexivity.
Defined.

(** ** Card moves of the current player *)

Section CardMoveFacts.
Import UnoGame.
Implicit Types (g : t) (p : UnoPlayer.t) (c top : UnoCard.t).

Lemma is_active_pushed g (i : nat) p (hand' : list UnoCard.t) c :
  players g !! i = Some p ->
  is_active g = true ->
  is_active (pushed g i hand' c) = (0 <? length hand')%nat.
Proof.
  unfold is_active, pushed. simpl. generalize (players g). clear g.
  intros ps. revert i. induction ps as [|q ps IH]; intros i Hi Hall; [done|].
  simpl in Hall. apply andb_true_iff in Hall as [Hq Hps].
  destruct i as [|i]; simpl.
  - by rewrite Hps, andb_true_r.
  - rewrite Hq. simpl. by apply IH.
Qed.

Lemma members_not_black g p c :
  no_black_string g = true ->
  p ∈ players g ->
  c ∈ UnoPlayer.hand p ->
  py_eq (UnoCard.color c) (VStr "black") = false.
Proof.
  unfold no_black_string. rewrite forallb_forall. intros Hall Hp Hc.
  specialize (Hall p ltac:(by apply list_elem_of_In)).
  rewrite forallb_forall in Hall.
  specialize (Hall c ltac:(by apply list_elem_of_In)).
  by apply negb_true_iff in Hall.
Qed.

Lemma py_index_nat {A : Type} (l : list A) (i : nat) :
  i < length l -> py_index l (Z.of_nat i) = Some i.
Proof.
  intros Hi. unfold py_index.
  destruct (Z.leb_spec 0 (Z.of_nat i)); [|lia].
  destruct (Z.ltb_spec (Z.of_nat i) (Z.of_nat (length l))); [|lia].
  by rewrite Nat2Z.id.
Qed.

(** The card at which the loop of the opponent breaks is the first playable
    card of the hand. *)
Lemma first_playable_spec top (s : nat) (hand : list UnoCard.t) (i : nat) c :
  AIUnoGame.first_playable top s hand = Some (i, c) ->
  exists j,
    i = s + j
    /\ hand !! j = Some c
    /\ UnoCard.playable top c = true
    /\ forall j' c', j' < j -> hand !! j' = Some c' -> UnoCard.playable top c' = false.
Proof.
  revert s. induction hand as [|x hand IH]; intros s H; [done|].
  simpl in H. destruct (UnoCard.playable top x) eqn:Hx.
  - simplify_eq. exists 0. split_and!; [lia|done|done|]. intros j' c' Hj. lia.
  - destruct (IH (S s) H) as (j & -> & Hj & Hc & Hmin).
    exists (S j). split_and!; [lia|done|done|].
    intros [|j'] c' Hlt Hc'; simpl in Hc'; [by simplify_eq|].
    apply (Hmin j'); [lia|done].
Qed.

Lemma first_playable_none top (s : nat) (hand : list UnoCard.t) :
  AIUnoGame.first_playable top s hand = None ->
  existsb (UnoCard.playable top) hand = false.
Proof.
  revert s. induction hand as [|x hand IH]; intros s H; [done|].
  simpl in *. destruct (UnoCard.playable top x); [done|]. by eapply IH.
Qed.


End CardMoveFacts.

(** X8: a card move of the current player that passes the checks of
    [play] ends in an [AttributeError], whatever the card: the card has left
    the hand and lies on top of the deck, and nothing else has happened.
    The turn has not passed, the direction is as it was, no other hand and
    no winner has changed, and the game is over from then on if the card was
    the last of the hand. *)
Theorem card_move_outcome (g : UnoGame.t) (p : UnoPlayer.t) (card : Z) (k : nat)
    (c : UnoCard.t) (new_color : value) :
  legal_card g p card k c new_color ->
  exists g',
    UnoGame.play (Z.of_nat (UnoGame._current_player g)) (Some card) new_color g
    = (inl (AttributeError "card_type"), g')
    /\ UnoGame.deck g' = UnoGame.deck g ++ [c]
    /\ hands g' = <[UnoGame._current_player g := delete k (UnoPlayer.hand p)]> (hands g)
    /\ seat_ids g' = seat_ids g
    /\ UnoGame._current_player g' = UnoGame._current_player g
    /\ UnoGame._player_cycle g' = UnoGame._player_cycle g
    /\ UnoGame._winner g' = UnoGame._winner g
    /\ UnoGame.is_active g' = (1 <? length (UnoPlayer.hand p))%nat.
Proof.
  intros Hlegal. rewrite (legal_card_outcome g p card k c new_color Hlegal).
  destruct Hlegal as (Hp & Hk & Hc & _ & _ & Hactive).
  eexists. split; [reflexivity|]. split_and!; try reflexivity.
  - apply hands_set.
  - apply (ids_alter_hand (fun _ => delete k (UnoPlayer.hand p))).
  - rewrite (is_active_pushed g _ p) by done.
    rewrite length_delete by eauto.
    apply lookup_lt_Some in Hc.
    destruct (Nat.ltb_spec 0 (length (UnoPlayer.hand p) - 1)),
             (Nat.ltb_spec 1 (length (UnoPlayer.hand p))); (done || lia).
Qed.

Lemma card_move_outcome_witness :
  exists g',
    UnoGame.play 0 (Some 1%Z) VNone small_table
    = (inl (AttributeError "card_type"), g')
    /\ UnoGame.deck g' = UnoGame.deck small_table ++ [card RED SKIP]
    /\ UnoGame._current_player g' = 0.
Proof.
  destruct (card_move_outcome small_table
              (UnoPlayer.mk [card RED N1; card RED SKIP] (Some 0%Z))
              1 1 (card RED SKIP) VNone)
    as (g' & Hplay & Hdeck & _ & _ & Hcur & _).
  - split_and!; try reflexivity.
    + exists (card RED N7). by split.
    + discriminate.
  - exists g'. split_and!; [exact Hplay|exact Hdeck|exact Hcur].
Defined.

(** X9: no call of [play] carries out the effect of a card.  Whatever
    the call and its outcome, the direction of play is as it was, the hand
    of every player other than the one named in the call is as it was, the
    hand of that player has grown by one card at most, and a card move
    leaves the turn where it was. *)
Theorem play_takes_no_effect (g : UnoGame.t) (player : Z) (card : option Z)
    (new_color : value) :
  let g' := snd (UnoGame.play player card new_color g) in
  ReversibleCycle._reverse (UnoGame._player_cycle g')
  = ReversibleCycle._reverse (UnoGame._player_cycle g)
  /\ (forall i, i <> Z.to_nat player -> hands g' !! i = hands g !! i)
  /\ (forall h h',
        hands g !! Z.to_nat player = Some h ->
        hands g' !! Z.to_nat player = Some h' ->
        length h' <= length h + 1)
  /\ (forall i,
        card = Some i ->
        UnoGame._current_player g' = UnoGame._current_player g
        /\ UnoGame._player_cycle g' = UnoGame._player_cycle g).
Proof.
  cbv zeta.
  destruct (play_cases g player card new_color)
    as [(e & -> & _)|[(-> & Hp & _ & _ & ->)|(i & p & k & c & -> & _ & Hpl & _ & Hc & ->)]].
  - simpl. split_and!; try done. intros h h' H1 H2. simplify_eq. lia.
  - assert (Hnext : hands (snd (UnoGame.next (drew g (Z.to_nat player))))
                    = hands (drew g (Z.to_nat player))
                    /\ ReversibleCycle._reverse
                         (UnoGame._player_cycle
                            (snd (UnoGame.next (drew g (Z.to_nat player)))))
                       = ReversibleCycle._reverse (UnoGame._player_cycle g)).
    { destruct (next_cases (drew g (Z.to_nat player))) as [[e ->]|(q & cy & -> & Hrev)];
        [done|]. split; [done|]. exact Hrev. }
    destruct Hnext as [Hhands Hrev]. rewrite Hhands.
    assert (Hdrew : hands (drew g (Z.to_nat player))
                    = alter (fun h => h ++ take 1 (UnoGame.deck g)) (Z.to_nat player)
                            (hands g)) by apply hands_extend.
    rewrite Hdrew. split_and!.
    + exact Hrev.
    + intros i Hi. by rewrite list_lookup_alter_ne.
    + intros h h' Hh. rewrite list_lookup_alter_eq, Hh. simpl. intros [= <-].
      rewrite length_app, length_take. lia.
    + intros i Hi. discriminate Hi.
  - simpl.
    assert (Hpushed : hands (pushed g (Z.to_nat player) (delete k (UnoPlayer.hand p)) c)
                      = <[Z.to_nat player := delete k (UnoPlayer.hand p)]> (hands g))
      by apply hands_set.
    rewrite Hpushed. split_and!.
    + reflexivity.
    + intros j Hj. by rewrite list_lookup_insert_ne.
    + intros h h' Hh. unfold hands in Hh. rewrite list_lookup_fmap, Hpl in Hh.
      simpl in Hh. simplify_eq.
      rewrite list_lookup_insert_eq
        by (unfold hands; rewrite length_map; by eapply lookup_lt_Some).
      intros [= <-]. rewrite length_delete by eauto. lia.
    + intros j _. by split.
Qed.

(** X10: where no card in a hand has the string ['black'] as its colour,
    the colour argument of [play] has no bearing on the call: with any two
    colour arguments the outcome and the game afterwards are the same. *)
Theorem play_ignores_new_color (g : UnoGame.t) (player : Z) (card : option Z)
    (new_color new_color' : value) :
  no_black_string g = true ->
  UnoGame.play player card new_color g = UnoGame.play player card new_color' g.
Proof.
  intros Hmembers.
  destruct (decide (0 <= player < Z.of_nat (length (UnoGame.players g)))%Z) as [Hp|Hp];
    [|by rewrite !play_out_of_range].
  destruct (decide (UnoGame._current_player g = Z.to_nat player)) as [Hturn|Hturn];
    [|by rewrite !play_out_of_turn].
  destruct card as [i|]; [|by rewrite !play_draw].
  destruct (lookup_lt_is_Some_2 (UnoGame.players g) (Z.to_nat player) ltac:(lia))
    as [p Hplayer].
  rewrite !(play_checks g player i _ p) by done.
  destruct (py_getitem (UnoPlayer.hand p) i) as [e|c] eqn:Hc; [done|].
  apply py_getitem_inr in Hc as (k & Hk & Hck).
  rewrite (members_not_black g p c Hmembers)
    by (by eapply list_elem_of_lookup_2).
  cbn [andb].
  by rewrite !(play_card_outcome g _ i _ p k c).
Qed.

Lemma play_ignores_new_color_witness :
  UnoGame.play 0 (Some 0%Z) VNone wild_table
  = UnoGame.play 0 (Some 0%Z) (VStr "purple") wild_table.
Proof.
  apply play_ignores_new_color. reflexivity.
Defined.

(** X14: every call of [play], whatever its outcome, leaves the seating as
    it was: the players and their identifiers are the same, the cycle runs
    over the same seats, and the current player is the one at the position
    of the cycle. *)
Theorem play_keeps_seating (g : UnoGame.t) (player : Z) (card : option Z)
    (new_color : value) :
  consistent g ->
  consistent (snd (UnoGame.play player card new_color g))
  /\ seat_ids (snd (UnoGame.play player card new_color g)) = seat_ids g.
Proof.
  intros Hg. split; [by apply preserves_play|].
  destruct (play_cases g player card new_color)
    as [(e & -> & _)|[(_ & _ & _ & _ & ->)|(i & p & k & c & _ & _ & _ & _ & _ & ->)]].
  - reflexivity.
  - transitivity (seat_ids (drew g (Z.to_nat player))).
    + destruct (next_cases (drew g (Z.to_nat player))) as [[e ->]|(q & cy & -> & _)];
        reflexivity.
    + apply (ids_alter_hand
               (fun q => UnoPlayer.hand q ++ take 1 (UnoGame.deck g))).
  - apply (ids_alter_hand (fun _ => delete k (UnoPlayer.hand p))).
Qed.

Lemma play_keeps_seating_witness :
  consistent (snd (UnoGame.play 0 (Some 0%Z) VNone small_table))
  /\ seat_ids (snd (UnoGame.play 0 (Some 0%Z) VNone small_table)) = seat_ids small_table.
Proof.
  apply play_keeps_seating.
  repeat split; vm_compute; (reflexivity || lia).
Defined.

(** ** Playable cards, [can_play] and the automated opponent *)



(** X18: the move of the automated opponent.  On an active game whose
    current player is seated under the identifier of the seat, with a
    [choice] that picks among [COLORS]: when [can_play] is True the opponent
    puts down the first playable card of the hand, the card is moved, and
    the call of [play] raises at the lookup of [card_type], the turn staying
    with the opponent; when [can_play] is False the opponent draws. *)
Theorem opponent_turn_outcome (choice : list value -> value) (g : UnoGame.t)
    (p : UnoPlayer.t) (top : UnoCard.t) :
  UnoGame.players g !! UnoGame._current_player g = Some p ->
  UnoPlayer.player_id p = Some (Z.of_nat (UnoGame._current_player g)) ->
  py_getitem (UnoGame.deck g) (-1) = inr top ->
  UnoGame.is_active g = true ->
  in_COLORS (choice COLORS) = true ->
  if UnoPlayer.can_play p top
  then exists (i : nat) (c : UnoCard.t),
      AIUnoGame.first_playable top 0 (UnoPlayer.hand p) = Some (i, c)
      /\ UnoPlayer.hand p !! i = Some c
      /\ (forall j c', j < i -> UnoPlayer.hand p !! j = Some c' ->
                       UnoCard.playable top c' = false)
      /\ AIUnoGame.opponent_turn choice g
         = (inl (AttributeError "card_type"),
            pushed g (UnoGame._current_player g) (delete i (UnoPlayer.hand p)) c)
  else AIUnoGame.opponent_turn choice g
       = UnoGame.play (Z.of_nat (UnoGame._current_player g)) None VNone g.
Proof.
  intros Hp Hid Htop Hactive Hchoice.
  unfold AIUnoGame.opponent_turn, UnoGame.bind, UnoGame.get, UnoGame.current_card.
  rewrite Hp, Htop, Hid.
  destruct (UnoPlayer.can_play p top) eqn:Hcan; [|reflexivity].
  destruct (AIUnoGame.first_playable top 0 (UnoPlayer.hand p)) as [[i c]|] eqn:Hfirst.
  - destruct (first_playable_spec top 0 _ i c Hfirst) as (j & -> & Hj & Hplayable & Hmin).
    exists (0 + j), c. split_and!; [done|done|exact Hmin|].
    simpl. apply legal_card_outcome. split_and!; try done.
    + apply py_index_nat. by eapply lookup_lt_Some.
    + by exists top.
    + intros Hblack. rewrite Hblack. by rewrite py_eq_refl.
  - apply first_playable_none in Hfirst. unfold UnoPlayer.can_play in Hcan. congruence.
Qed.

Lemma opponent_turn_outcome_witness :
  exists (i : nat) (c : UnoCard.t),
    AIUnoGame.first_playable (card RED N7) 0 [card RED N1; card RED SKIP] = Some (i, c)
    /\ [card RED N1; card RED SKIP] !! i = Some c
    /\ (forall j c', j < i -> [card RED N1; card RED SKIP] !! j = Some c' ->
                     UnoCard.playable (card RED N7) c' = false)
    /\ AIUnoGame.opponent_turn (fun _ => VColor RED) small_table
       = (inl (AttributeError "card_type"),
          pushed small_table 0 (delete i [card RED N1; card RED SKIP]) c).
Proof.
  exact (opponent_turn_outcome (fun _ => VColor RED) small_table
           (UnoPlayer.mk [card RED N1; card RED SKIP] (Some 0%Z)) (card RED N7)
           eq_refl eq_refl eq_refl eq_refl eq_refl).
Defined.

(** ** Card moves at the edges *)



Section NegativeIndex.
Import UnoGame.

Lemma py_index_negative {A : Type} (l : list A) (i : Z) :
  (- Z.of_nat (length l) <= i < 0)%Z ->
  py_index l i = py_index l (Z.of_nat (length l) + i).
Proof.
  intros Hi. unfold py_index.
  destruct (Z.leb_spec 0 i); [lia|].
  destruct (Z.leb_spec (- Z.of_nat (length l)) i); [|lia].
  destruct (Z.leb_spec 0 (Z.of_nat (length l) + i)); [|lia].
  destruct (Z.ltb_spec (Z.of_nat (length l) + i) (Z.of_nat (length l))); [|lia].
  reflexivity.
Qed.

Lemma play_card_index (g : t) (player : nat) (p : UnoPlayer.t) (i j : Z)
    (new_color : value) :
  players g !! player = Some p ->
  py_index (UnoPlayer.hand p) i = py_index (UnoPlayer.hand p) j ->
  play_card player i new_color g = play_card player j new_color g.
Proof.
  intros Hp Hij.
  assert (Hpop : hand_pop player i g = hand_pop player j g).
  { unfold hand_pop, bind, hand_of, lift. rewrite Hp. unfold py_pop. by rewrite Hij. }
  unfold play_card. unfold bind at 1 3. by rewrite Hpop.
Qed.

End NegativeIndex.

(** X20: a negative card index is not out of range: from [-len(hand)] to
    [-1] it counts from the end of the hand, and the call of [play] does
    what the call with the index [len(hand) + card] does. *)
Theorem play_negative_index (g : UnoGame.t) (p : UnoPlayer.t) (player card : Z)
    (new_color : value) :
  UnoGame.players g !! Z.to_nat player = Some p ->
  (- Z.of_nat (length (UnoPlayer.hand p)) <= card < 0)%Z ->
  UnoGame.play player (Some card) new_color g
  = UnoGame.play player (Some (Z.of_nat (length (UnoPlayer.hand p)) + card)%Z) new_color g.
Proof.
  intros Hp Hcard.
  pose proof (py_index_negative (UnoPlayer.hand p) card Hcard) as Hindex.
  destruct (decide (0 <= player < Z.of_nat (length (UnoGame.players g)))%Z) as [Hrange|Hrange];
    [|by rewrite !play_out_of_range].
  destruct (decide (UnoGame._current_player g = Z.to_nat player)) as [Hturn|Hturn];
    [|by rewrite !play_out_of_turn].
  rewrite !(play_checks g player _ new_color p) by done.
  unfold py_getitem. rewrite Hindex.
  by rewrite (play_card_index g _ p card _ new_color Hp Hindex).
Qed.

Lemma play_negative_index_witness :
  UnoGame.play 0 (Some (-1)%Z) VNone small_table
  = UnoGame.play 0 (Some 1%Z) VNone small_table.
Proof.
  apply (play_negative_index small_table
           (UnoPlayer.mk [card RED N1; card RED SKIP] (Some 0%Z)) 0 (-1) VNone).
  - reflexivity.
  - simpl. lia.
Defined.
